(** * Bookshelf: the library store, the library service and the service's mock store

    A shallow embedding of the Go code of the bookshelf course
    ([library/store/store.go], [library/service], and the mock store of
    [library/service/service_test.go]) together with a model of the
    collaborators that code calls: Go errors and [fmt.Errorf], contexts,
    the [database/sql] / [sqlx] handle and the [books] table of
    [migrations/20220406.0-add-book-table.sql]. *)

From Equations Require Import Equations.
From Stdlib Require Import ZArith List String Ascii Bool Lia Sorted Permutation
  DecimalString.
Import ListNotations.

Local Open Scope string_scope.
Local Open Scope list_scope.
Local Open Scope Z_scope.

(** ** Go values *)

(** A Go slice is either [nil] or an allocated (possibly empty) sequence. *)
Definition slice (A : Type) : Type := option (list A).

Definition len {A : Type} (s : slice A) : nat :=
  match s with
  | None => 0%nat
  | Some l => List.length l
  end.

Definition elems {A : Type} (s : slice A) : list A :=
  match s with
  | None => []
  | Some l => l
  end.

(** [append(s, x)]: appending to a nil slice allocates. *)
Definition append {A : Type} (s : slice A) (x : A) : slice A :=
  Some (elems s ++ [x]).

(** What a Go call does: it returns, or the goroutine panics. *)
Inductive outcome (A : Type) : Type :=
| Returns (a : A)
| Panics (msg : string).
Arguments Returns {A} a.
Arguments Panics {A} msg.

(** ** Errors *)

Module errors.

(** Error values.  The package-level sentinels are constructors, so that
    their identity is what Go's [==] compares; [errorString] is the value
    of a [fmt.Errorf] call without [%w] and [wrapError] the value of one
    with a single [%w] (message and wrapped error, as in package fmt). *)
Inductive error : Type :=
| ErrNoRows                            (* sql.ErrNoRows *)
| errDBClosed                          (* database/sql: sql: database is closed *)
| Canceled                             (* context.Canceled *)
| DeadlineExceeded                     (* context.DeadlineExceeded *)
| ErrMockNotImplemented                (* service_test.ErrMockNotImplemented *)
| pqError (code message : string)      (* *pq.Error: SQLSTATE and message *)
| errorString (s : string)
| wrapError (msg : string) (err : error).

Definition Error (e : error) : string :=
  match e with
  | ErrNoRows => "sql: no rows in result set"
  | errDBClosed => "sql: database is closed"
  | Canceled => "context canceled"
  | DeadlineExceeded => "context deadline exceeded"
  | ErrMockNotImplemented => "mock not implemented"
  | pqError _ message => ("pq: " ++ message)%string
  | errorString s => s
  | wrapError msg _ => msg
  end.

Definition Unwrap (e : error) : option error :=
  match e with
  | wrapError _ err => Some err
  | _ => None
  end.

Fixpoint eqb (a b : error) : bool :=
  match a, b with
  | ErrNoRows, ErrNoRows => true
  | errDBClosed, errDBClosed => true
  | Canceled, Canceled => true
  | DeadlineExceeded, DeadlineExceeded => true
  | ErrMockNotImplemented, ErrMockNotImplemented => true
  | pqError c1 k1, pqError c2 k2 => String.eqb c1 c2 && String.eqb k1 k2
  | errorString s1, errorString s2 => String.eqb s1 s2
  | wrapError m1 e1, wrapError m2 e2 => String.eqb m1 m2 && eqb e1 e2
  | _, _ => false
  end.

(** [errors.Is(err, target)]: some error of [err]'s chain equals [target]. *)
Fixpoint Is (err target : error) : bool :=
  eqb err target ||
  match err with
  | wrapError _ inner => Is inner target
  | _ => false
  end.

End errors.

Abbreviation error := errors.error.

Module fmt.

(** [fmt.Errorf(msg)], no verb in [msg]. *)
Definition Errorf (msg : string) : error := errors.errorString msg.

(** [fmt.Errorf(prefix + "%w", err)]. *)
Definition Errorf_w (prefix : string) (err : error) : error :=
  errors.wrapError (prefix ++ errors.Error err)%string err.

(** The verb [%d] at an [int64]. *)
Definition d (z : Z) : string := NilZero.string_of_int (Z.to_int z).

End fmt.

(** ** Contexts *)

Module context.

(** A context is [Background], or one that its owner cancels or whose
    deadline passes after a number of further round trips to the database
    ([0]: it is done already). *)
Inductive Context : Type :=
| Background
| WithCancel (steps : nat)
| WithTimeout (steps : nat).

(** [ctx.Err()] *)
Definition Err (ctx : Context) : option error :=
  match ctx with
  | WithCancel O => Some errors.Canceled
  | WithTimeout O => Some errors.DeadlineExceeded
  | _ => None
  end.

(** The same context one round trip later. *)
Definition tick (ctx : Context) : Context :=
  match ctx with
  | Background => Background
  | WithCancel n => WithCancel (pred n)
  | WithTimeout n => WithTimeout (pred n)
  end.

End context.

(** ** The database handle and the [books] table *)

Module sqlx.

(** A row of
    [CREATE TABLE books (id BIGSERIAL PRIMARY KEY,
       title TEXT NOT NULL CHECK (length(title) > 0),
       author TEXT NOT NULL CHECK (length(author) > 0),
       created_at TIMESTAMPTZ DEFAULT NOW())]. *)
Record BookRow : Type := {
  col_id : Z;
  col_title : string;
  col_author : string;
  col_created_at : Z
}.

(** What a [*sqlx.DB] handle stands for: whether [Close] was called on it,
    the rows of [books] (oldest first), the value the sequence behind
    [id] hands out next, and the server's clock. *)
Record DB : Type := {
  closed : bool;
  books : list BookRow;
  books_id_seq : Z;
  now : Z
}.

(** The database right after the migration ran at time [t]. *)
Definition migrated (t : Z) : DB :=
  {| closed := false; books := []; books_id_seq := 1; now := t |}.

(** The four statements of the store, with their arguments bound. *)
Inductive Query : Type :=
| INSERT_INTO_books (title author : string)
    (* INSERT INTO books (title, author) VALUES ($1, $2) RETURNING id; *)
| DELETE_FROM_books (id : Z)
    (* DELETE FROM books WHERE id = $1; *)
| SELECT_FROM_books_WHERE_id (id : Z)
    (* SELECT id, title, author FROM books WHERE id = $1; *)
| SELECT_FROM_books_ORDER_BY_id.
    (* SELECT id, title, author FROM books ORDER BY id ASC; *)

(** The largest [BIGINT], where a [BIGSERIAL] sequence ends. *)
Definition max_int8 : Z := 9223372036854775807.

Definition dquote : string := String (ascii_of_nat 34) EmptyString.

Definition check_violation (constraint : string) : error :=
  errors.pqError "23514"
    ("new row for relation " ++ dquote ++ "books" ++ dquote ++
     " violates check constraint " ++ dquote ++ constraint ++ dquote)%string.

Definition unique_violation (constraint : string) : error :=
  errors.pqError "23505"
    ("duplicate key value violates unique constraint " ++
     dquote ++ constraint ++ dquote)%string.

Definition sequence_limit (sequence : string) : error :=
  errors.pqError "2200H"
    ("nextval: reached maximum value of sequence " ++
     dquote ++ sequence ++ dquote)%string.

(** [ORDER BY id ASC] *)
Fixpoint insert_by_id (r : BookRow) (l : list BookRow) : list BookRow :=
  match l with
  | [] => [r]
  | x :: l' => if col_id r <? col_id x then r :: l else x :: insert_by_id r l'
  end.

Fixpoint order_by_id (l : list BookRow) : list BookRow :=
  match l with
  | [] => []
  | r :: l' => insert_by_id r (order_by_id l')
  end.

(** The server runs a statement: the rows it selects or returns (their
    column list is applied when they are scanned), or its error, and the
    database afterwards.  An [INSERT] draws [id] from the sequence before
    the constraints are checked, so a refused row still uses up a value.
    Only the constraints of the schema are modelled; the encoding checks
    PostgreSQL applies to a text value are not. *)
Definition execute (q : Query) (db : DB) : (list BookRow * option error) * DB :=
  match q with
  | INSERT_INTO_books title author =>
      let id := books_id_seq db in
      if max_int8 <? id then ([], Some (sequence_limit "books_id_seq"), db)
      else
        let db1 := {| closed := closed db; books := books db;
                      books_id_seq := id + 1; now := now db |} in
        if (String.length author =? 0)%nat then
          ([], Some (check_violation "books_author_check"), db1)
        else if (String.length title =? 0)%nat then
          ([], Some (check_violation "books_title_check"), db1)
        else if existsb (fun r => col_id r =? id) (books db) then
          ([], Some (unique_violation "books_pkey"), db1)
        else
          let r := {| col_id := id; col_title := title; col_author := author;
                      col_created_at := now db |} in
          ([r], None,
           {| closed := closed db; books := books db ++ [r];
              books_id_seq := id + 1; now := now db |})
  | DELETE_FROM_books id =>
      ([], None,
       {| closed := closed db;
          books := filter (fun r => negb (col_id r =? id)) (books db);
          books_id_seq := books_id_seq db; now := now db |})
  | SELECT_FROM_books_WHERE_id id =>
      (filter (fun r => col_id r =? id) (books db), None, db)
  | SELECT_FROM_books_ORDER_BY_id =>
      (order_by_id (books db), None, db)
  end.

(** Taking a connection for a call: a closed handle refuses, then a
    context that is done already. *)
Definition conn (ctx : context.Context) (db : DB) : option error :=
  if closed db then Some errors.errDBClosed else context.Err ctx.

(** [*sqlx.Rows]: the rows not yet read, the row [Next] prepared, the
    context the query runs under, and how the iteration ended. *)
Record Rows : Type := {
  pending : list BookRow;
  lastcols : option BookRow;
  rows_ctx : context.Context;
  rows_closed : bool;
  lasterr : option error
}.

(** [rows.Next()]: false at the end of the result and when the query's
    context is done, which closes the rows and leaves the context's error
    for [rows.Err()]. *)
Definition Next (rows : Rows) : bool * Rows :=
  if rows_closed rows then (false, rows)
  else
    match context.Err (rows_ctx rows) with
    | Some err =>
        (false, {| pending := pending rows; lastcols := None;
                   rows_ctx := rows_ctx rows; rows_closed := true;
                   lasterr := Some err |})
    | None =>
        match pending rows with
        | [] =>
            (false, {| pending := []; lastcols := None;
                       rows_ctx := rows_ctx rows; rows_closed := true;
                       lasterr := None |})
        | r :: rest =>
            (true, {| pending := rest; lastcols := Some r;
                      rows_ctx := context.tick (rows_ctx rows);
                      rows_closed := false; lasterr := None |})
        end
    end.

(** [rows.Scan(&id, &title, &author)] on the columns [id, title, author]:
    the destinations afterwards and the error. *)
Definition Scan (rows : Rows) (dest : Z * string * string)
  : (Z * string * string) * option error :=
  if rows_closed rows then (dest, Some (fmt.Errorf "sql: Rows are closed"))
  else
    match lastcols rows with
    | None => (dest, Some (fmt.Errorf "sql: Scan called without calling Next"))
    | Some r => ((col_id r, col_title r, col_author r), None)
    end.

(** [rows.Err()] *)
Definition Err (rows : Rows) : option error := lasterr rows.

(** [db.QueryxContext(ctx, q, args...)]: the rows, or else the error. *)
Definition QueryxContext (ctx : context.Context) (q : Query) (db : DB)
  : (Rows + error) * DB :=
  match conn ctx db with
  | Some err => (inr err, db)
  | None =>
      match execute q db with
      | (_, Some err, db') => (inr err, db')
      | (res, None, db') =>
          (inl {| pending := res; lastcols := None;
                  rows_ctx := context.tick ctx; rows_closed := false;
                  lasterr := None |}, db')
      end
  end.

(** [db.QueryRowxContext(ctx, q, args...)]: a [*sqlx.Row] holds the rows
    or the error of the query until [Scan] is called. *)
Definition Row : Type := (Rows + error)%type.

Definition QueryRowxContext (ctx : context.Context) (q : Query) (db : DB)
  : Row * DB :=
  QueryxContext ctx q db.

(** [row.Scan(&id, &title, &author)]: the query's error if it had one,
    the error of the iteration or [sql.ErrNoRows] if there is no first
    row, that row otherwise. *)
Definition Row_Scan (row : Row) (dest : Z * string * string)
  : (Z * string * string) * option error :=
  match row with
  | inr err => (dest, Some err)
  | inl rows =>
      match Next rows with
      | (false, rows') =>
          match Err rows' with
          | Some err => (dest, Some err)
          | None => (dest, Some errors.ErrNoRows)
          end
      | (true, rows') => Scan rows' dest
      end
  end.

(** [db.GetContext(ctx, &dest, q, args...)] with an [int64] destination,
    for a statement that returns the column [id]. *)
Definition GetContext (ctx : context.Context) (dest : Z) (q : Query) (db : DB)
  : (Z * option error) * DB :=
  match QueryRowxContext ctx q db with
  | (row, db') =>
      match Row_Scan row (dest, "", "") with
      | ((id, _, _), err) => (id, err, db')
      end
  end.

(** [db.ExecContext(ctx, q, args...)]; the store drops the [sql.Result]. *)
Definition ExecContext (ctx : context.Context) (q : Query) (db : DB)
  : option error * DB :=
  match conn ctx db with
  | Some err => (Some err, db)
  | None =>
      match execute q db with
      | (_, err, db') => (err, db')
      end
  end.

End sqlx.

(** ** The domain model: [library/book.go] *)

Module library.

Record Book : Type := {
  ID : Z;
  Title : string;
  Author : string
}.

End library.

(** ** The service: [library/service] *)

Module service.

(** The store as the service sees it.  A method takes the state behind
    the store's pointer and gives it back with its results. *)
Class LibraryStore (S : Type) : Type := {
  LibraryStore_CreateBook :
    context.Context -> string -> string -> S ->
    (option library.Book * option error) * S;
  LibraryStore_GetBookByID :
    context.Context -> Z -> S -> (option library.Book * option error) * S;
  LibraryStore_GetBooks :
    context.Context -> S -> (slice library.Book * option error) * S
}.

(** [Store] is an interface value: [None] is the nil interface. *)
Record LibraryService (S : Type) : Type := {
  Store : option S
}.
Arguments Store {S} _.

Record AddBookRequest : Type := {
  AddBookRequest_Title : string;
  AddBookRequest_Author : string
}.

Record AddBookResponse : Type := {
  AddBookResponse_Book : option library.Book
}.

Record GetBookRequest : Type := {
  GetBookRequest_ID : Z
}.

Record GetBookResponse : Type := {
  GetBookResponse_Book : option library.Book
}.

Record GetBooksRequest : Type := {}.

Record GetBooksResponse : Type := {
  GetBooksResponse_Books : slice library.Book
}.

Definition nil_dereference : string :=
  "runtime error: invalid memory address or nil pointer dereference".

Definition newline : string := String (ascii_of_nat 10) EmptyString.

(** A method of the service gives what the call does, the service
    afterwards, and the lines it wrote with [log.Printf]. *)
Definition result (R S : Type) : Type :=
  outcome (option R * option error) * LibraryService S * list string.

Section Service.

Context {S : Type} `{LibraryStore S}.

Definition AddBook (ctx : context.Context) (req : AddBookRequest)
  (ls : LibraryService S) : result AddBookResponse S :=
  if String.eqb (AddBookRequest_Title req) "" then
    (Returns (None, Some (fmt.Errorf "add book: title can't be blank")), ls, [])
  else if String.eqb (AddBookRequest_Author req) "" then
    (Returns (None, Some (fmt.Errorf "add book: author can't be blank")), ls, [])
  else
    match Store ls with
    | None => (Panics nil_dereference, ls, [])
    | Some st =>
        match LibraryStore_CreateBook ctx (AddBookRequest_Title req)
                (AddBookRequest_Author req) st with
        | (_, Some err, st') =>
            (Returns (None, Some (fmt.Errorf_w "add book: " err)),
             {| Store := Some st' |}, [])
        | (None, None, st') =>
            (Panics nil_dereference, {| Store := Some st' |}, [])
        | (Some book, None, st') =>
            (Returns (Some {| AddBookResponse_Book := Some book |}, None),
             {| Store := Some st' |},
             ["added book " ++ fmt.d (library.ID book) ++ ": " ++
              library.Title book ++ newline]%string)
        end
    end.

Definition GetBook (ctx : context.Context) (req : GetBookRequest)
  (ls : LibraryService S) : result GetBookResponse S :=
  match Store ls with
  | None => (Panics nil_dereference, ls, [])
  | Some st =>
      match LibraryStore_GetBookByID ctx (GetBookRequest_ID req) st with
      | (_, Some err, st') =>
          (Returns (None, Some (fmt.Errorf_w "get book: " err)),
           {| Store := Some st' |}, [])
      | (book, None, st') =>
          (Returns (Some {| GetBookResponse_Book := book |}, None),
           {| Store := Some st' |}, [])
      end
  end.

Definition GetBooks (ctx : context.Context) (req : GetBooksRequest)
  (ls : LibraryService S) : result GetBooksResponse S :=
  match Store ls with
  | None => (Panics nil_dereference, ls, [])
  | Some st =>
      match LibraryStore_GetBooks ctx st with
      | (_, Some err, st') =>
          (Returns (None, Some (fmt.Errorf_w "get books: " err)),
           {| Store := Some st' |}, [])
      | (books, None, st') =>
          (Returns (Some {| GetBooksResponse_Books := books |}, None),
           {| Store := Some st' |}, [])
      end
  end.

End Service.

End service.

(** ** The store: [library/store/store.go] *)

Module store.

Record LibraryStore : Type := {
  DB : sqlx.DB
}.

Definition inspect {A : Type} (a : A) : {b : A | a = b} := exist _ a eq_refl.

Definition CreateBook (ctx : context.Context) (title author : string)
  (s : LibraryStore) : (option library.Book * option error) * LibraryStore :=
  let q := sqlx.INSERT_INTO_books title author in
  let id := 0 in
  match sqlx.GetContext ctx id q (DB s) with
  | (_, Some err, db) =>
      (None, Some (fmt.Errorf_w "create book: " err), {| DB := db |})
  | (id, None, db) =>
      (Some {| library.ID := id; library.Title := title; library.Author := author |},
       None, {| DB := db |})
  end.

Definition DeleteBook (ctx : context.Context) (id : Z) (s : LibraryStore)
  : option error * LibraryStore :=
  let q := sqlx.DELETE_FROM_books id in
  match sqlx.ExecContext ctx q (DB s) with
  | (Some err, db) => (Some (fmt.Errorf_w "delete book: " err), {| DB := db |})
  | (None, db) => (None, {| DB := db |})
  end.

Definition GetBookByID (ctx : context.Context) (id : Z) (s : LibraryStore)
  : (option library.Book * option error) * LibraryStore :=
  let q := sqlx.SELECT_FROM_books_WHERE_id id in
  let book := {| library.ID := 0; library.Title := ""; library.Author := "" |} in
  match sqlx.QueryRowxContext ctx q (DB s) with
  | (row, db) =>
      match sqlx.Row_Scan row (library.ID book, library.Title book, library.Author book) with
      | (_, Some err) =>
          (None, Some (fmt.Errorf_w "get book by id: " err), {| DB := db |})
      | ((id', title, author), None) =>
          (Some {| library.ID := id'; library.Title := title; library.Author := author |},
           None, {| DB := db |})
      end
  end.

(** The loop [for rows.Next() { ... }] of [GetBooks] from the slice built
    so far: what [GetBooks] returns, and the rows as the loop leaves them.
    Each iteration declares a new [book], so the pointers appended are to
    distinct books. *)
Equations GetBooks_loop (rows : sqlx.Rows) (books : slice library.Book)
  : (slice library.Book * option error) * sqlx.Rows
  by wf (List.length (sqlx.pending rows)) lt :=
GetBooks_loop rows books with inspect (sqlx.Next rows) := {
  | exist _ (false, rows') _ => ((books, None), rows');
  | exist _ (true, rows') Hnext with sqlx.Scan rows' (0, "", "") := {
    | (_, Some err) => ((None, Some (fmt.Errorf_w "get books: " err)), rows');
    | ((id, title, author), None) =>
        GetBooks_loop rows'
          (append books
             {| library.ID := id; library.Title := title; library.Author := author |})
    }
  }.
Next Obligation.
  unfold sqlx.Next in Hnext.
  destruct (sqlx.rows_closed rows); [discriminate |].
  destruct (context.Err (sqlx.rows_ctx rows)); [discriminate |].
  destruct (sqlx.pending rows) as [| r rest]; [discriminate |].
  inversion Hnext; subst; simpl; lia.
Defined.

Definition GetBooks (ctx : context.Context) (s : LibraryStore)
  : (slice library.Book * option error) * LibraryStore :=
  let q := sqlx.SELECT_FROM_books_ORDER_BY_id in
  match sqlx.QueryxContext ctx q (DB s) with
  | (inr err, db) =>
      (None, Some (fmt.Errorf_w "get books: " err), {| DB := db |})
  | (inl rows, db) =>
      let books : slice library.Book := Some [] in
      (fst (GetBooks_loop rows books), {| DB := db |})
  end.

#[global] Instance LibraryStore_store : service.LibraryStore LibraryStore := {
  service.LibraryStore_CreateBook := CreateBook;
  service.LibraryStore_GetBookByID := GetBookByID;
  service.LibraryStore_GetBooks := GetBooks
}.

End store.

(** ** The store of the persistence lesson's start

    [04-persistence-begin/library/store/store.go]: [CreateBook] takes the
    book by pointer and writes the new id into it. *)

Module store_begin.

(** The error, and the book behind the pointer after the call. *)
Definition CreateBook (ctx : context.Context) (book : library.Book)
  (s : store.LibraryStore) : (option error * library.Book) * store.LibraryStore :=
  let q := sqlx.INSERT_INTO_books (library.Title book) (library.Author book) in
  match sqlx.GetContext ctx (library.ID book) q (store.DB s) with
  | (id, Some err, db) =>
      (Some (fmt.Errorf_w "create book: " err),
       {| library.ID := id; library.Title := library.Title book;
          library.Author := library.Author book |},
       {| store.DB := db |})
  | (id, None, db) =>
      (None,
       {| library.ID := id; library.Title := library.Title book;
          library.Author := library.Author book |},
       {| store.DB := db |})
  end.

End store_begin.

(** ** The mock store: [library/service/service_test.go] *)

Module service_test.

(** The anonymous struct of [CreateBookCalledWith]. *)
Record CreateBookArgs : Type := {
  Ctx : context.Context;
  Title : string;
  Author : string
}.

Record mockStore : Type := {
  CreateBookCalledWith : slice CreateBookArgs;
  CreateBookFn :
    option (context.Context -> string -> string ->
            option library.Book * option error)
}.

(** The guard returns before the call [ms.CreateBookFn(...)], which would
    panic on a nil function. *)
Definition CreateBook (ctx : context.Context) (title author : string)
  (ms : mockStore) : (option library.Book * option error) * mockStore :=
  match CreateBookFn ms with
  | None => (None, Some errors.ErrMockNotImplemented, ms)
  | Some fn =>
      let ms' :=
        {| CreateBookCalledWith :=
             append (CreateBookCalledWith ms)
               {| Ctx := ctx; Title := title; Author := author |};
           CreateBookFn := CreateBookFn ms |} in
      (fn ctx title author, ms')
  end.

Definition GetBookByID (ctx : context.Context) (id : Z) (ms : mockStore)
  : (option library.Book * option error) * mockStore :=
  (None, Some (fmt.Errorf "TODO"), ms).

Definition GetBooks (ctx : context.Context) (ms : mockStore)
  : (slice library.Book * option error) * mockStore :=
  (None, Some (fmt.Errorf "TODO"), ms).

#[global] Instance LibraryStore_mockStore : service.LibraryStore mockStore := {
  service.LibraryStore_CreateBook := CreateBook;
  service.LibraryStore_GetBookByID := GetBookByID;
  service.LibraryStore_GetBooks := GetBooks
}.

(** The store each case of [TestLibraryService_AddBook] starts from. *)
Definition test_store : mockStore :=
  {| CreateBookCalledWith := None;
     CreateBookFn := Some (fun _ title author =>
       (Some {| library.ID := 123; library.Title := title;
                library.Author := author |}, None)) |}.

(** What a test does with its mock between calls of the service: it
    sets the behaviour function, or the store method is called. *)
Inductive action : Type :=
| SetCreateBookFn
    (fn : option (context.Context -> string -> string ->
                  option library.Book * option error))
| CallCreateBook (ctx : context.Context) (title author : string).

Definition step (ms : mockStore) (a : action) : mockStore :=
  match a with
  | SetCreateBookFn fn =>
      {| CreateBookCalledWith := CreateBookCalledWith ms; CreateBookFn := fn |}
  | CallCreateBook ctx title author => snd (CreateBook ctx title author ms)
  end.

Definition run (ms : mockStore) (actions : list action) : mockStore :=
  fold_left step actions ms.

(** The arguments of the calls of a run that were made while a behaviour
    function was set, in call order. *)
Fixpoint configured_calls
  (fn : option (context.Context -> string -> string ->
                option library.Book * option error))
  (actions : list action) : list CreateBookArgs :=
  match actions with
  | [] => []
  | SetCreateBookFn fn' :: rest => configured_calls fn' rest
  | CallCreateBook ctx title author :: rest =>
      match fn with
      | None => configured_calls fn rest
      | Some _ =>
          {| Ctx := ctx; Title := title; Author := author |} ::
          configured_calls fn rest
      end
  end.

End service_test.

(** ** Notions the properties are stated with *)

(** The error kinds of the design, as the code tells them apart: a
    validation error is one of the two errors [AddBook] makes for a blank
    field; a not-found error has [sql.ErrNoRows] in its chain. *)
Definition ValidationError (e : error) : bool :=
  errors.eqb e (fmt.Errorf "add book: title can't be blank") ||
  errors.eqb e (fmt.Errorf "add book: author can't be blank").

Definition NotFoundError (e : error) : bool :=
  errors.Is e errors.ErrNoRows.

(** The context [ctx] after [n] round trips, and whether it is still
    live then (a context that is done stays done). *)
Definition after (n : nat) (ctx : context.Context) : context.Context :=
  Nat.iter n context.tick ctx.

Definition live (n : nat) (ctx : context.Context) : Prop :=
  context.Err (after n ctx) = None.

(** The invariant of the [books] table: the sequence starts at 1, rows
    lie oldest first with ascending ids that the sequence handed out
    already, and every row satisfies the two CHECK constraints. *)
Definition wf (db : sqlx.DB) : Prop :=
  1 <= sqlx.books_id_seq db /\
  StronglySorted Z.lt (map sqlx.col_id (sqlx.books db)) /\
  Forall (fun r => 1 <= sqlx.col_id r < sqlx.books_id_seq db) (sqlx.books db) /\
  Forall (fun r => sqlx.col_title r <> "" /\ sqlx.col_author r <> "") (sqlx.books db).

(** The domain entity a row is read as: [created_at] is not selected. *)
Definition book_of_row (r : sqlx.BookRow) : library.Book :=
  {| library.ID := sqlx.col_id r;
     library.Title := sqlx.col_title r;
     library.Author := sqlx.col_author r |}.

(** The row an [INSERT] adds to the database [db]. *)
Definition inserted_row (title author : string) (db : sqlx.DB) : sqlx.BookRow :=
  {| sqlx.col_id := sqlx.books_id_seq db; sqlx.col_title := title;
     sqlx.col_author := author; sqlx.col_created_at := sqlx.now db |}.

(** The rows an iteration under [ctx] reads before the context is done. *)
Fixpoint delivered (ctx : context.Context) (l : list sqlx.BookRow)
  : list sqlx.BookRow :=
  match context.Err ctx, l with
  | None, r :: l' => r :: delivered (context.tick ctx) l'
  | _, _ => []
  end.

(** [createManyBooks] of [store_test.go]: the books of [params] created
    in order and the ids they got, or the first error.  (The cleanups it
    registers run when the test ends.) *)
Fixpoint createManyBooks_loop (ctx : context.Context) (ls : store.LibraryStore)
  (params : list (string * string)) (ids : slice Z)
  : outcome (slice Z * option error) * store.LibraryStore :=
  match params with
  | [] => (Returns (ids, None), ls)
  | (title, author) :: rest =>
      match store.CreateBook ctx title author ls with
      | (_, Some err, ls') => (Returns (None, Some err), ls')
      | (None, None, ls') => (Panics service.nil_dereference, ls')
      | (Some b, None, ls') =>
          createManyBooks_loop ctx ls' rest (append ids (library.ID b))
      end
  end.

Definition createManyBooks (ctx : context.Context) (ls : store.LibraryStore)
  (params : list (string * string))
  : outcome (slice Z * option error) * store.LibraryStore :=
  createManyBooks_loop ctx ls params (Some []).

(** The calls a client makes on the store, and the store after a call. *)
Inductive call : Type :=
| CreateBookCall (ctx : context.Context) (title author : string)
| DeleteBookCall (ctx : context.Context) (id : Z)
| GetBookByIDCall (ctx : context.Context) (id : Z)
| GetBooksCall (ctx : context.Context).

Definition store_after (s : store.LibraryStore) (c : call) : store.LibraryStore :=
  match c with
  | CreateBookCall ctx title author => snd (store.CreateBook ctx title author s)
  | DeleteBookCall ctx id => snd (store.DeleteBook ctx id s)
  | GetBookByIDCall ctx id => snd (store.GetBookByID ctx id s)
  | GetBooksCall ctx => snd (store.GetBooks ctx s)
  end.

(** A call that leaves the row with the id [id] in the table: any call
    but a [DeleteBook] of that id. *)
Definition keeps (id : Z) (c : call) : Prop :=
  match c with
  | DeleteBookCall _ id' => id' <> id
  | _ => True
  end.

(** The service after its store served the calls [calls]. *)
Definition service_after (calls : list call)
  (ls : service.LibraryService store.LibraryStore)
  : service.LibraryService store.LibraryStore :=
  {| service.Store := option_map (fold_left store_after calls) (service.Store ls) |}.

(** ** Data of the tests

    The requests, books and stores the tests of the repository use. *)

Definition dune_request : service.AddBookRequest :=
  {| service.AddBookRequest_Title := "Dune";
     service.AddBookRequest_Author := "Frank Herbert" |}.

Definition new_store : store.LibraryStore := {| store.DB := sqlx.migrated 0 |}.

Definition three_books : list (string * string) :=
  [("Norse Mythology", "Neil Gaiman");
   ("The Divine Comedy", "Dante Alighieri");
   ("2001: A Space Odyssey", "Arthur C. Clarke")].

(** The store of [three_books], and its first book. *)
Definition three_books_store : store.LibraryStore :=
  snd (createManyBooks context.Background new_store three_books).

Definition norse_mythology : library.Book :=
  {| library.ID := 1; library.Title := "Norse Mythology";
     library.Author := "Neil Gaiman" |}.

Definition new_mock : service_test.mockStore :=
  {| service_test.CreateBookCalledWith := None;
     service_test.CreateBookFn := None |}.

(** * The rest of the lessons' code *)

(** ** The service of the first-model lesson

    [AddBook] as [02-first-model-begin/README.md] writes it, before the
    testing lesson adds the two checks of the request. *)

Module service_first_model.

Section Service.

Context {S : Type} `{service.LibraryStore S}.

Definition AddBook (ctx : context.Context) (req : service.AddBookRequest)
  (ls : service.LibraryService S) : service.result service.AddBookResponse S :=
  match service.Store ls with
  | None => (Panics service.nil_dereference, ls, [])
  | Some st =>
      match service.LibraryStore_CreateBook ctx (service.AddBookRequest_Title req)
              (service.AddBookRequest_Author req) st with
      | (_, Some err, st') =>
          (Returns (None, Some (fmt.Errorf_w "add book: " err)),
           {| service.Store := Some st' |}, [])
      | (None, None, st') =>
          (Panics service.nil_dereference, {| service.Store := Some st' |}, [])
      | (Some book, None, st') =>
          (Returns (Some {| service.AddBookResponse_Book := Some book |}, None),
           {| service.Store := Some st' |},
           ["added book " ++ fmt.d (library.ID book) ++ ": " ++
            library.Title book ++ service.newline]%string)
      end
  end.

End Service.

End service_first_model.

(** ** The [greet] example of the first-model lesson

    The three versions of [greet] that [02-first-model-begin/README.md]
    uses to argue for request and response types. *)

Module greet_example.

(** [func greet(name string) string] *)
Definition greet_name (name : string) : string :=
  ("Hello, " ++ name ++ "!")%string.

Record greetRequest : Type := {
  Name : string;
  Language : string
}.

Record greetResponse : Type := {
  Greeting : string
}.

(** [greet] taking a [greetRequest] and returning a [greetResponse] or
    an error, while the request has the field [Name] only. *)
Definition greet_request (name : string) : option greetResponse * option error :=
  (Some {| Greeting := ("Hello, " ++ name ++ "!")%string |}, None).

(** The same function once the request has a [Language]. *)
Definition greet (params : greetRequest) : option greetResponse * option error :=
  let params :=
    if String.eqb (Language params) ""
    then {| Name := Name params; Language := "en" |}
    else params in
  if String.eqb (Language params) "en" then
    (Some {| Greeting := ("Hello, " ++ Name params ++ "!")%string |}, None)
  else if String.eqb (Language params) "de" then
    (Some {| Greeting := ("Hallo, " ++ Name params ++ "!")%string |}, None)
  else
    (None, Some (fmt.Errorf ("invalid language: " ++ Language params)%string)).

End greet_example.

(** ** Package testing, as the store's tests use it *)

Module testing.

(** An operand of a log call, and a log call: [t.Log], [t.Fatal] take
    operands, [t.Errorf] a format and operands.  The calls are kept as
    made; package fmt renders them. *)
Inductive operand : Type :=
| Str (s : string)
| Int (z : Z)
| Error (e : error).

Inductive entry : Type :=
| Println (args : list operand)
| Printf (format : string) (args : list operand).

Section T.

(** [W] is what the test's cleanup functions act on. *)
Variable W : Type.

(** A cleanup function, by what it logs on [t] and does to [W]. *)
Definition cleanup : Type := W -> list entry * W.

(** [*testing.T]: whether the test failed, what it logged, and the
    cleanup functions registered, oldest first. *)
Record T : Type := {
  failed : bool;
  output : list entry;
  cleanups : list cleanup
}.

Definition new : T := {| failed := false; output := []; cleanups := [] |}.

(** [t.Log(args...)] *)
Definition Log (t : T) (args : list operand) : T :=
  {| failed := failed t; output := output t ++ [Println args];
     cleanups := cleanups t |}.

(** [t.Errorf(format, args...)]: logs and marks the test failed; the
    test goes on. *)
Definition Errorf (t : T) (format : string) (args : list operand) : T :=
  {| failed := true; output := output t ++ [Printf format args];
     cleanups := cleanups t |}.

(** [t.Fatal(args...)]: logs and marks the test failed; the caller
    returns at once, as [FailNow] ends the test function. *)
Definition Fatal (t : T) (args : list operand) : T :=
  {| failed := true; output := output t ++ [Println args];
     cleanups := cleanups t |}.

(** [t.Cleanup(f)] *)
Definition Cleanup (t : T) (f : cleanup) : T :=
  {| failed := failed t; output := output t; cleanups := cleanups t ++ [f] |}.

(** After the test function is over its cleanup functions run, the one
    registered last first. *)
Definition runCleanup (t : T) (w : W) : T * W :=
  fold_left
    (fun (tw : T * W) (f : cleanup) =>
       let '(lines, w') := f (snd tw) in
       ({| failed := failed (fst tw); output := output (fst tw) ++ lines;
           cleanups := [] |}, w'))
    (rev (cleanups t))
    ({| failed := failed t; output := output t; cleanups := [] |}, w).

(** A test function: from a new [t] and the world to [t] and the world
    when it is over, and the value it panicked with if it did. *)
Definition test : Type := T -> W -> T * W * option string.

(** Running one test: the function, then its cleanups (also when it
    failed or panicked). *)
Definition tRunner (f : test) (w : W) : T * W * option string :=
  match f new w with
  | (t, w1, panicked) =>
      let '(t', w2) := runCleanup t w1 in (t', w2, panicked)
  end.

(** [m.Run()]: the tests in order; the exit code is 0 if all passed and
    1 if one failed.  A panic ends the process with code 2 before the
    tests after it run. *)
Fixpoint Run (tests : list test) (w : W) : Z * list (list entry) * W :=
  match tests with
  | [] => (0, [], w)
  | f :: rest =>
      match tRunner f w with
      | (t, w', Some _) => (2, [output t], w')
      | (t, w', None) =>
          match Run rest w' with
          | (code, outs, w'') =>
              (if failed t then Z.max 1 code else code, output t :: outs, w'')
          end
      end
  end.

End T.

Arguments failed {W} _.
Arguments output {W} _.
Arguments cleanups {W} _.
Arguments new {W}.
Arguments Log {W} _ _.
Arguments Errorf {W} _ _ _.
Arguments Fatal {W} _ _.
Arguments Cleanup {W} _ _.
Arguments runCleanup {W} _ _.
Arguments tRunner {W} _ _.
Arguments Run {W} _ _.

End testing.

(** ** [internal/test/test.go] *)

Module test.

(** [MustCleanup(t, f)]: [f] runs as a cleanup of [t], and its error, if
    any, is logged. *)
Definition MustCleanup {W : Type} (t : testing.T W) (f : W -> option error * W)
  : testing.T W :=
  testing.Cleanup t
    (fun w =>
       match f w with
       | (Some err, w') =>
           ([testing.Println
               [testing.Str "failed to clean up after test:"; testing.Error err]],
            w')
       | (None, w') => ([], w')
       end).

End test.

(** ** More of the database handle *)

(** [sqlx.MustConnect]: a new handle on the database that [db] is. *)
Definition MustConnect (db : sqlx.DB) : sqlx.DB :=
  {| sqlx.closed := false; sqlx.books := sqlx.books db;
     sqlx.books_id_seq := sqlx.books_id_seq db; sqlx.now := sqlx.now db |}.

(** [db.Close()] *)
Definition Close (db : sqlx.DB) : option error * sqlx.DB :=
  (None,
   {| sqlx.closed := true; sqlx.books := sqlx.books db;
      sqlx.books_id_seq := sqlx.books_id_seq db; sqlx.now := sqlx.now db |}).

(** The message of a slice index that is out of range. *)
Definition index_out_of_range (i len : nat) : string :=
  ("runtime error: index out of range [" ++ fmt.d (Z.of_nat i) ++
   "] with length " ++ fmt.d (Z.of_nat len))%string.

(** ** The store's tests: [04-persistence-end/library/store/store_test.go]

    The tests of the store whose [CreateBook] returns the book.  The
    world of their cleanups is the global [ls]. *)

Module store_test.

Definition T : Type := testing.T store.LibraryStore.

Definition quoted (s : string) : string := (sqlx.dquote ++ s ++ sqlx.dquote)%string.

(** The loop of [createManyBooks].  [p[0]] and [p[1]] panic on an
    entry of [params] that is too short.  A nil book would panic at
    [b.ID]; [store.CreateBook] returns none without an error. *)
Fixpoint createManyBooks_loop (ctx : context.Context) (t : T)
  (ls : store.LibraryStore) (params : list (list string)) (ids : slice Z)
  : (slice Z * option error) * T * store.LibraryStore * option string :=
  match params with
  | [] => ((ids, None), t, ls, None)
  | p :: rest =>
      match nth_error p 0 with
      | None => ((None, None), t, ls, Some (index_out_of_range 0 (List.length p)))
      | Some title =>
          match nth_error p 1 with
          | None =>
              ((None, None), t, ls, Some (index_out_of_range 1 (List.length p)))
          | Some author =>
              match store.CreateBook ctx title author ls with
              | (_, Some err, ls') => ((None, Some err), t, ls', None)
              | (None, None, ls') =>
                  ((None, None), t, ls', Some service.nil_dereference)
              | (Some b, None, ls') =>
                  let t := test.MustCleanup t
                             (fun ls => store.DeleteBook ctx (library.ID b) ls) in
                  createManyBooks_loop ctx t ls' rest (append ids (library.ID b))
              end
          end
      end
  end.

Definition createManyBooks (ctx : context.Context) (t : T)
  (ls : store.LibraryStore) (params : list (list string))
  : (slice Z * option error) * T * store.LibraryStore * option string :=
  createManyBooks_loop ctx t ls params (Some []).

Definition TestLibraryStore_CreateBook : testing.test store.LibraryStore :=
  fun t ls =>
  let ctx := context.Background in
  match store.CreateBook ctx "The Lean Startup" "Eric Ries" ls with
  | (_, Some err, ls) =>
      (testing.Fatal t [testing.Str "unexpected error:"; testing.Error err],
       ls, None)
  | (None, None, ls) => (t, ls, Some service.nil_dereference)
  | (Some createdBook, None, ls) =>
      let t := test.MustCleanup t
                 (fun ls => store.DeleteBook ctx (library.ID createdBook) ls) in
      let t :=
        if library.ID createdBook =? 0
        then testing.Errorf t "expected id to not be blank, but it was" []
        else t in
      let t :=
        if negb (String.eqb (library.Title createdBook) "The Lean Startup")
        then testing.Errorf t
               ("expected title to be " ++ quoted "The Lean Startup" ++
                " but got %q")%string
               [testing.Str (library.Title createdBook)]
        else t in
      let t :=
        if negb (String.eqb (library.Author createdBook) "Eric Ries")
        then testing.Errorf t
               ("expected author to be " ++ quoted "Eric Ries" ++
                " but got %q")%string
               [testing.Str (library.Author createdBook)]
        else t in
      (t, ls, None)
  end.

Definition TestLibraryStore_DeleteBook : testing.test store.LibraryStore :=
  fun t ls =>
  let ctx := context.Background in
  match store.CreateBook ctx "The Lean Startup" "Eric Ries" ls with
  | (_, Some err, ls) =>
      (testing.Fatal t [testing.Str "unexpected error:"; testing.Error err],
       ls, None)
  | (None, None, ls) => (t, ls, Some service.nil_dereference)
  | (Some createdBook, None, ls) =>
      match store.DeleteBook ctx (library.ID createdBook) ls with
      | (Some err, ls) =>
          (testing.Fatal t [testing.Str "unexpected error:"; testing.Error err],
           ls, None)
      | (None, ls) => (t, ls, None)
      end
  end.

Definition TestLibraryStore_GetBookByID : testing.test store.LibraryStore :=
  fun t ls =>
  let ctx := context.Background in
  match store.CreateBook ctx "The Lean Startup" "Eric Ries" ls with
  | (_, Some err, ls) =>
      (testing.Fatal t [testing.Str "unexpected error:"; testing.Error err],
       ls, None)
  | (None, None, ls) => (t, ls, Some service.nil_dereference)
  | (Some createdBook, None, ls) =>
      let t := test.MustCleanup t
                 (fun ls => store.DeleteBook ctx (library.ID createdBook) ls) in
      match store.GetBookByID ctx (library.ID createdBook) ls with
      | (_, Some err, ls) =>
          (testing.Fatal t [testing.Str "unexpected error:"; testing.Error err],
           ls, None)
      | (None, None, ls) => (t, ls, Some service.nil_dereference)
      | (Some gotBook, None, ls) =>
          let t :=
            if negb (library.ID gotBook =? library.ID createdBook)
            then testing.Errorf t "expected id to be %d but got %d"
                   [testing.Int (library.ID createdBook);
                    testing.Int (library.ID gotBook)]
            else t in
          let t :=
            if negb (String.eqb (library.Title gotBook) "The Lean Startup")
            then testing.Errorf t
                   ("expected title to be " ++ quoted "The Lean Startup" ++
                    " but got %q")%string
                   [testing.Str (library.Title gotBook)]
            else t in
          let t :=
            if negb (String.eqb (library.Author gotBook) "Eric Ries")
            then testing.Errorf t
                   ("expected author to be " ++ quoted "Eric Ries" ++
                    " but got %q")%string
                   [testing.Str (library.Author gotBook)]
            else t in
          (t, ls, None)
      end
  end.

(** The loop [for idx, book := range books] of [TestLibraryStore_GetBooks]
    from index [idx] on: [ids[idx]], [params[idx]] and the two strings
    of [params[idx]] panic when the index is out of range. *)
Fixpoint compare_books (t : T) (idx : nat) (books : list library.Book)
  (ids : slice Z) (params : list (list string)) : T * option string :=
  match books with
  | [] => (t, None)
  | book :: rest =>
      match nth_error (elems ids) idx with
      | None => (t, Some (index_out_of_range idx (len ids)))
      | Some id =>
          match nth_error params idx with
          | None => (t, Some (index_out_of_range idx (List.length params)))
          | Some p =>
              match nth_error p 0 with
              | None => (t, Some (index_out_of_range 0 (List.length p)))
              | Some title =>
                  match nth_error p 1 with
                  | None => (t, Some (index_out_of_range 1 (List.length p)))
                  | Some author =>
                      let t :=
                        if negb (library.ID book =? id)
                        then testing.Errorf t
                               "expected book %d id to be %d, but got %d"
                               [testing.Int (Z.of_nat idx); testing.Int id;
                                testing.Int (library.ID book)]
                        else t in
                      let t :=
                        if negb (String.eqb (library.Title book) title)
                        then testing.Errorf t
                               "expected book %d title to be %q, but got %q"
                               [testing.Int (Z.of_nat idx); testing.Str title;
                                testing.Str (library.Title book)]
                        else t in
                      let t :=
                        if negb (String.eqb (library.Author book) author)
                        then testing.Errorf t
                               "expected book %d author to be %q, but got %q"
                               [testing.Int (Z.of_nat idx); testing.Str author;
                                testing.Str (library.Author book)]
                        else t in
                      compare_books t (S idx) rest ids params
                  end
              end
          end
      end
  end.

(** [params] of [TestLibraryStore_GetBooks]. *)
Definition params : list (list string) :=
  [["Norse Mythology"; "Neil Gaiman"];
   ["The Divine Comedy"; "Dante Alighieri"];
   ["2001: A Space Odyssey"; "Arthur C. Clarke"]].

Definition TestLibraryStore_GetBooks : testing.test store.LibraryStore :=
  fun t ls =>
  let ctx := context.Background in
  match createManyBooks ctx t ls params with
  | (_, t, ls, Some panicked) => (t, ls, Some panicked)
  | ((_, Some err), t, ls, None) =>
      (testing.Fatal t [testing.Str "unexpected error:"; testing.Error err],
       ls, None)
  | ((ids, None), t, ls, None) =>
      match store.GetBooks ctx ls with
      | (_, Some err, ls) =>
          (testing.Fatal t [testing.Str "unexpected error:"; testing.Error err],
           ls, None)
      | (books, None, ls) =>
          match compare_books t 0 (elems books) ids params with
          | (t, panicked) => (t, ls, panicked)
          end
      end
  end.

(** [TestMain]: [os.Exit(code)] ends the process, so the deferred
    [ls.DB.Close()] does not run.  The exit code, the log of each test
    that ran, and [ls] at the end. *)
Definition TestMain (db : sqlx.DB)
  : Z * list (list testing.entry) * store.LibraryStore :=
  let ls := {| store.DB := MustConnect db |} in
  testing.Run
    [TestLibraryStore_CreateBook; TestLibraryStore_DeleteBook;
     TestLibraryStore_GetBookByID; TestLibraryStore_GetBooks] ls.

End store_test.

(** ** The store's first test: [04-persistence-begin/library/store/store_test.go]

    The test of the store whose [CreateBook] writes the id through the
    pointer, as the lesson first writes it (a connection of its own,
    closed by a [defer]) and as it leaves it (the connection of
    [TestMain]). *)

Module store_test_begin.

Definition deleteBook (ctx : context.Context) (db : sqlx.DB) (id : Z)
  : option error * sqlx.DB :=
  let q := sqlx.DELETE_FROM_books id in
  match sqlx.ExecContext ctx q db with
  | (Some err, db) => (Some (fmt.Errorf_w "delete book: " err), db)
  | (None, db) => (None, db)
  end.

(** The test from [book := ...] on, on the store [ls]. *)
Definition TestLibraryStore_CreateBook : testing.test store.LibraryStore :=
  fun t ls =>
  let ctx := context.Background in
  let book := {| library.ID := 0; library.Title := "The Lean Startup";
                 library.Author := "Eric Ries" |} in
  match store_begin.CreateBook ctx book ls with
  | (Some err, book, ls) =>
      (testing.Fatal t [testing.Str "unexpected error:"; testing.Error err],
       ls, None)
  | (None, book, ls) =>
      let t := test.MustCleanup t
                 (fun ls =>
                    match deleteBook ctx (store.DB ls) (library.ID book) with
                    | (err, db) => (err, {| store.DB := db |})
                    end) in
      let t :=
        if library.ID book =? 0
        then testing.Errorf t "expected id to not be blank, but it was" []
        else t in
      let t :=
        if negb (String.eqb (library.Title book) "The Lean Startup")
        then testing.Errorf t
               ("expected title to be " ++ store_test.quoted "The Lean Startup" ++
                " but got %q")%string
               [testing.Str (library.Title book)]
        else t in
      let t :=
        if negb (String.eqb (library.Author book) "Eric Ries")
        then testing.Errorf t
               ("expected author to be " ++ store_test.quoted "Eric Ries" ++
                " but got %q")%string
               [testing.Str (library.Author book)]
        else t in
      (t, ls, None)
  end.

(** The test as first written: it connects, and [defer db.Close()] runs
    when the test function returns, before the cleanups of [t]. *)
Definition TestLibraryStore_CreateBook_own_connection
  : testing.test store.LibraryStore :=
  fun t ls =>
  let db := MustConnect (store.DB ls) in
  let ls := {| store.DB := db |} in
  match TestLibraryStore_CreateBook t ls with
  | (t, ls, panicked) => (t, {| store.DB := snd (Close (store.DB ls)) |}, panicked)
  end.

(** [TestMain]: no tests without [TEST_DATABASE_URL]; otherwise the test
    on one connection, which is closed after [m.Run()] returned.  The
    exit code, the lines printed, the log of each test, the database. *)
Definition TestMain (TEST_DATABASE_URL : string) (db : sqlx.DB)
  : Z * list string * list (list testing.entry) * sqlx.DB :=
  if String.eqb TEST_DATABASE_URL "" then
    (0, ["set the TEST_DATABASE_URL environment variable to run this test suite"],
     [], db)
  else
    let ls := {| store.DB := MustConnect db |} in
    match testing.Run [TestLibraryStore_CreateBook] ls with
    | (code, outs, ls) =>
        if code =? 2 then (code, [], outs, store.DB ls)
        else (code, [], outs, snd (Close (store.DB ls)))
    end.

End store_test_begin.

(** ** Notions for the tests *)

(** The cleanup function that [MustCleanup] registers for
    [ls.DeleteBook(ctx, id)]. *)
Definition delete_cleanup (ctx : context.Context) (id : Z)
  : testing.cleanup store.LibraryStore :=
  fun w =>
    match store.DeleteBook ctx id w with
    | (Some err, w') =>
        ([testing.Println
            [testing.Str "failed to clean up after test:"; testing.Error err]],
         w')
    | (None, w') => ([], w')
    end.

(** The store [ls] on an open handle with [k] more values of the
    sequence used, the rows being [rows]. *)
Definition with_rows (rows : list sqlx.BookRow) (k : Z) (ls : store.LibraryStore)
  : store.LibraryStore :=
  {| store.DB :=
       {| sqlx.closed := false; sqlx.books := rows;
          sqlx.books_id_seq := sqlx.books_id_seq (store.DB ls) + k;
          sqlx.now := sqlx.now (store.DB ls) |} |}.

(** An entry of [params] with the title and the author [p], and the
    title and the author that the tests read from an entry. *)
Definition entry_of (p : string * string) : list string := [fst p; snd p].


(** A test that passed and logged nothing, after its cleanups ran. *)
Definition passed : store_test.T :=
  {| testing.failed := false; testing.output := []; testing.cleanups := [] |}.

(** * Properties *)

(** ** Errors and contexts *)

Lemma eqb_refl (e : error) : errors.eqb e e = true.
Proof.
  induction e; simpl; auto.
  - now rewrite !String.eqb_refl.
  - now rewrite String.eqb_refl.
  - now rewrite String.eqb_refl, IHe.
Qed.

Lemma eqb_eq (a b : error) : errors.eqb a b = true <-> a = b.
Proof.
  split; [| intros ->; apply eqb_refl].
  revert b; induction a; destruct b; simpl; try discriminate; auto.
  - rewrite andb_true_iff, !String.eqb_eq. now intros [-> ->].
  - rewrite String.eqb_eq. now intros ->.
  - rewrite andb_true_iff, String.eqb_eq. intros [-> E]. now rewrite (IHa _ E).
Qed.

Lemma Is_refl (e : error) : errors.Is e e = true.
Proof. destruct e; simpl; rewrite ?eqb_refl, ?String.eqb_refl; reflexivity. Qed.

(** Wrapping keeps the cause: it is what [Unwrap] gives back, and every
    target the cause matches is still matched. *)
Lemma Unwrap_Errorf_w (prefix : string) (err : error) :
  errors.Unwrap (fmt.Errorf_w prefix err) = Some err.
Proof. reflexivity. Qed.

Lemma Is_Errorf_w (prefix : string) (err target : error) :
  errors.Is err target = true ->
  errors.Is (fmt.Errorf_w prefix err) target = true.
Proof. intros E; simpl; rewrite E; apply orb_true_r. Qed.

Lemma Is_Errorf_w_sentinel (prefix : string) (err target : error) :
  errors.Unwrap target = None ->
  errors.Is (fmt.Errorf_w prefix err) target = errors.Is err target.
Proof. destruct target; simpl; intros; try reflexivity; discriminate. Qed.

Lemma Error_Errorf_w (prefix : string) (err : error) :
  errors.Error (fmt.Errorf_w prefix err) = (prefix ++ errors.Error err)%string.
Proof. reflexivity. Qed.

Lemma after_S (n : nat) (ctx : context.Context) :
  after (S n) ctx = after n (context.tick ctx).
Proof. unfold after; now rewrite Nat.iter_succ_r. Qed.

Lemma Err_tick (ctx : context.Context) :
  context.Err (context.tick ctx) = None -> context.Err ctx = None.
Proof. destruct ctx as [| [| n] | [| n]]; simpl; auto. Qed.

Lemma live_S (n : nat) (ctx : context.Context) :
  live (S n) ctx -> live 0 ctx /\ live n (context.tick ctx).
Proof.
  unfold live; rewrite after_S; intros L; split; [| exact L].
  simpl. apply Err_tick.
  clear -L. revert ctx L; induction n; intros ctx L; [exact L |].
  rewrite after_S in L. apply Err_tick, IHn, L.
Qed.

Lemma live_Background (n : nat) : live n context.Background.
Proof.
  unfold live. induction n; [reflexivity |]. now rewrite after_S.
Qed.

(** ** The rows loop of [GetBooks] *)

Lemma Next_true (rows rows' : sqlx.Rows) :
  sqlx.Next rows = (true, rows') ->
  exists r rest,
    sqlx.pending rows = r :: rest /\
    context.Err (sqlx.rows_ctx rows) = None /\
    rows' = {| sqlx.pending := rest; sqlx.lastcols := Some r;
               sqlx.rows_ctx := context.tick (sqlx.rows_ctx rows);
               sqlx.rows_closed := false; sqlx.lasterr := None |}.
Proof.
  unfold sqlx.Next.
  destruct (sqlx.rows_closed rows); [discriminate |].
  destruct (context.Err (sqlx.rows_ctx rows)); [discriminate |].
  destruct (sqlx.pending rows) as [| r rest]; [discriminate |].
  intros E; inversion E; subst. now exists r, rest.
Qed.

Lemma Next_false (rows rows' : sqlx.Rows) :
  sqlx.rows_closed rows = false ->
  sqlx.Next rows = (false, rows') ->
  delivered (sqlx.rows_ctx rows) (sqlx.pending rows) = [].
Proof.
  unfold sqlx.Next. intros ->.
  destruct (sqlx.pending rows) as [| r rest];
    destruct (context.Err (sqlx.rows_ctx rows)) eqn:E; simpl; rewrite ?E;
    try reflexivity; discriminate.
Qed.

(** The loop appends the books of the rows it reads, in their order, and
    ends without an error. *)
Lemma GetBooks_loop_delivered (rows : sqlx.Rows) (books : slice library.Book) :
  sqlx.rows_closed rows = false ->
  fst (store.GetBooks_loop rows books) =
  (fold_left append
     (map book_of_row (delivered (sqlx.rows_ctx rows) (sqlx.pending rows)))
     books, None).
Proof.
  funelim (store.GetBooks_loop rows books); intros C.
  - rewrite (Next_false _ _ C e). reflexivity.
  - destruct (Next_true _ _ Hnext) as (r & rest & _ & _ & ->).
    discriminate.
  - destruct (Next_true _ _ Hnext) as (r & rest & P & E & ->).
    rewrite H by reflexivity.
    rewrite P; simpl; rewrite E; simpl.
    unfold sqlx.Scan in Heq; simpl in Heq. inversion Heq; subst.
    reflexivity.
Qed.

Lemma live_0 (n : nat) (ctx : context.Context) :
  live n ctx -> context.Err ctx = None.
Proof.
  revert ctx; induction n; intros ctx L; [exact L |].
  now apply live_S in L.
Qed.

Lemma delivered_live (l : list sqlx.BookRow) (ctx : context.Context) :
  live (List.length l) ctx -> delivered (context.tick ctx) l = l.
Proof.
  revert ctx; induction l as [| r l IH]; intros ctx L; simpl.
  - now destruct (context.Err (context.tick ctx)).
  - apply live_S in L as [_ L].
    rewrite (live_0 _ _ L). f_equal. now apply IH.
Qed.

Lemma fold_left_append {A : Type} (l : list A) (s : slice A) :
  fold_left append l s = match l with [] => s | _ => Some (elems s ++ l) end.
Proof.
  revert s; induction l as [| x l IH]; intros s; [reflexivity |].
  simpl. rewrite IH. destruct l; simpl; [reflexivity |].
  now rewrite <- app_assoc.
Qed.

(** ** The [books] table *)

Lemma insert_by_id_first (r : sqlx.BookRow) (l : list sqlx.BookRow) :
  Forall (Z.lt (sqlx.col_id r)) (map sqlx.col_id l) ->
  sqlx.insert_by_id r l = r :: l.
Proof.
  destruct l as [| x l]; simpl; [reflexivity |].
  intros F; inversion F; subst.
  now replace (sqlx.col_id r <? sqlx.col_id x) with true by (symmetry; apply Z.ltb_lt; assumption).
Qed.

(** Rows that lie in ascending id order are what [ORDER BY id ASC] gives. *)
Lemma order_by_id_sorted (l : list sqlx.BookRow) :
  StronglySorted Z.lt (map sqlx.col_id l) -> sqlx.order_by_id l = l.
Proof.
  induction l as [| r l IH]; simpl; [reflexivity |].
  intros SS; inversion SS; subst.
  rewrite IH by assumption. now apply insert_by_id_first.
Qed.

(** In general [ORDER BY id ASC] rearranges the rows into ascending ids. *)
Lemma insert_by_id_Permutation (r : sqlx.BookRow) (l : list sqlx.BookRow) :
  Permutation (r :: l) (sqlx.insert_by_id r l).
Proof.
  induction l as [| x l IH]; simpl; [reflexivity |].
  destruct (sqlx.col_id r <? sqlx.col_id x); [reflexivity |].
  rewrite perm_swap. now constructor.
Qed.

Lemma order_by_id_Permutation (l : list sqlx.BookRow) :
  Permutation l (sqlx.order_by_id l).
Proof.
  induction l as [| r l IH]; simpl; [constructor |].
  rewrite <- insert_by_id_Permutation. now constructor.
Qed.

Lemma insert_by_id_ascending (r : sqlx.BookRow) (l : list sqlx.BookRow) :
  StronglySorted (fun a b => sqlx.col_id a <= sqlx.col_id b) l ->
  StronglySorted (fun a b => sqlx.col_id a <= sqlx.col_id b) (sqlx.insert_by_id r l).
Proof.
  induction l as [| x l IH]; simpl; intros SS; [repeat constructor |].
  inversion SS; subst.
  destruct (sqlx.col_id r <? sqlx.col_id x) eqn:E.
  - apply Z.ltb_lt in E. constructor; [assumption |].
    constructor; [lia |]. eapply Forall_impl; [| eassumption]. simpl; intros; lia.
  - apply Z.ltb_ge in E. constructor; [now apply IH |].
    rewrite <- insert_by_id_Permutation. now constructor.
Qed.

Lemma order_by_id_ascending (l : list sqlx.BookRow) :
  StronglySorted (fun a b => sqlx.col_id a <= sqlx.col_id b) (sqlx.order_by_id l).
Proof.
  induction l as [| r l IH]; simpl; [constructor |]. now apply insert_by_id_ascending.
Qed.

Lemma StronglySorted_snoc (l : list Z) (a : Z) :
  StronglySorted Z.lt l -> Forall (fun x => x < a) l ->
  StronglySorted Z.lt (l ++ [a]).
Proof.
  induction l as [| x l IH]; simpl; intros SS F.
  - repeat constructor.
  - inversion SS; inversion F; subst. constructor; [now apply IH |].
    apply Forall_app; split; [assumption | now repeat constructor].
Qed.

Lemma StronglySorted_filter (f : sqlx.BookRow -> bool) (l : list sqlx.BookRow) :
  StronglySorted Z.lt (map sqlx.col_id l) ->
  StronglySorted Z.lt (map sqlx.col_id (filter f l)).
Proof.
  induction l as [| r l IH]; simpl; intros SS; [constructor |].
  inversion SS; subst. destruct (f r); simpl; [| now apply IH].
  constructor; [now apply IH |].
  rewrite Forall_forall in *. intros x Hx. apply H2.
  rewrite in_map_iff in *. destruct Hx as (y & <- & Hy).
  apply filter_In in Hy. exists y; tauto.
Qed.

Lemma Forall_filter {A : Type} (P : A -> Prop) (f : A -> bool) (l : list A) :
  Forall P l -> Forall P (filter f l).
Proof.
  rewrite !Forall_forall. intros F x Hx. apply filter_In in Hx. now apply F.
Qed.

Lemma wf_migrated (t : Z) : wf (sqlx.migrated t).
Proof. repeat split; simpl; try constructor; lia. Qed.

Lemma length_0_empty (s : string) : (String.length s =? 0)%nat = false -> s <> "".
Proof. destruct s; simpl; [discriminate | discriminate]. Qed.

(** Every statement keeps the invariant of the table. *)
Lemma execute_wf (q : sqlx.Query) (db : sqlx.DB) :
  wf db -> wf (snd (sqlx.execute q db)).
Proof.
  intros (Hseq & Hsorted & Hids & Hchk).
  destruct q as [title author | id | id |]; simpl.
  - destruct (sqlx.max_int8 <? sqlx.books_id_seq db); [now repeat split |].
    assert (W1 : forall B, B = sqlx.books db ->
               Forall (fun r => 1 <= sqlx.col_id r < sqlx.books_id_seq db + 1) B).
    { intros B ->. eapply Forall_impl; [| exact Hids]. simpl; intros; lia. }
    destruct (String.length author =? 0)%nat eqn:Ea;
      [repeat split; simpl; auto; lia |].
    destruct (String.length title =? 0)%nat eqn:Et;
      [repeat split; simpl; auto; lia |].
    destruct (existsb _ (sqlx.books db));
      [repeat split; simpl; auto; lia |].
    repeat split; simpl; try lia.
    + rewrite map_app. apply StronglySorted_snoc; [assumption |].
      rewrite Forall_map. eapply Forall_impl; [| exact Hids]. simpl; intros; lia.
    + apply Forall_app; split; [now apply W1 |].
      repeat constructor; simpl; lia.
    + apply Forall_app; split; [assumption |].
      repeat constructor; simpl; now apply length_0_empty.
  - repeat split; simpl; auto using StronglySorted_filter, Forall_filter.
  - now repeat split.
  - now repeat split.
Qed.

(** ** The store's methods *)

Ltac unfold_store :=
  unfold store.CreateBook, store.DeleteBook, store.GetBookByID, store.GetBooks,
    sqlx.GetContext, sqlx.ExecContext, sqlx.QueryRowxContext, sqlx.QueryxContext,
    sqlx.Row_Scan, sqlx.Next, sqlx.Scan, sqlx.Err, sqlx.conn in *.

Ltac split_ifs :=
  repeat match goal with
    | |- context [if ?c then _ else _] => destruct c eqn:?
    | |- context [match context.Err ?c with _ => _ end] =>
        destruct (context.Err c) eqn:?
    end.

Lemma CreateBook_inv (ctx : context.Context) (title author : string)
  (s s' : store.LibraryStore) (book : option library.Book) :
  store.CreateBook ctx title author s = (book, None, s') ->
  book = Some {| library.ID := sqlx.books_id_seq (store.DB s);
                 library.Title := title; library.Author := author |} /\
  store.DB s' =
    {| sqlx.closed := false;
       sqlx.books := sqlx.books (store.DB s) ++ [inserted_row title author (store.DB s)];
       sqlx.books_id_seq := sqlx.books_id_seq (store.DB s) + 1;
       sqlx.now := sqlx.now (store.DB s) |} /\
  title <> "" /\ author <> "" /\ sqlx.closed (store.DB s) = false.
Proof.
  unfold_store. simpl. split_ifs; simpl; try discriminate.
  all: split_ifs; simpl; try discriminate.
  intros E; inversion E; subst. repeat split; auto using length_0_empty.
Qed.

Lemma fresh_id (db : sqlx.DB) :
  wf db ->
  existsb (fun r => sqlx.col_id r =? sqlx.books_id_seq db) (sqlx.books db) = false.
Proof.
  intros (_ & _ & Hids & _).
  induction Hids as [| r l Hr _ IH]; simpl; [reflexivity |].
  rewrite IH, orb_false_r. apply Z.eqb_neq. lia.
Qed.

Lemma empty_length_0 (s : string) : s <> "" -> (String.length s =? 0)%nat = false.
Proof. destruct s; simpl; [congruence | reflexivity]. Qed.

(** On a healthy connection a book with a title and an author is stored,
    with the next id of the sequence. *)
Lemma CreateBook_ok (ctx : context.Context) (title author : string)
  (s : store.LibraryStore) :
  wf (store.DB s) -> sqlx.closed (store.DB s) = false -> live 1 ctx ->
  sqlx.books_id_seq (store.DB s) <= sqlx.max_int8 ->
  title <> "" -> author <> "" ->
  store.CreateBook ctx title author s =
  (Some {| library.ID := sqlx.books_id_seq (store.DB s);
           library.Title := title; library.Author := author |},
   None,
   {| store.DB :=
        {| sqlx.closed := false;
           sqlx.books := sqlx.books (store.DB s) ++ [inserted_row title author (store.DB s)];
           sqlx.books_id_seq := sqlx.books_id_seq (store.DB s) + 1;
           sqlx.now := sqlx.now (store.DB s) |} |}).
Proof.
  intros W C L Hmax Ht Ha.
  pose proof (live_0 _ _ L) as L0. apply live_S in L as [_ L1].
  unfold live, after in L1; simpl in L1.
  unfold_store. simpl.
  rewrite C, L0.
  replace (sqlx.max_int8 <? sqlx.books_id_seq (store.DB s)) with false
    by (symmetry; apply Z.ltb_ge; assumption).
  rewrite (empty_length_0 _ Ha), (empty_length_0 _ Ht), (fresh_id _ W).
  simpl. rewrite L1. reflexivity.
Qed.

(** What [GetBookByID] returns, by the state of the connection and the
    rows with the id. *)
Lemma GetBookByID_cases (ctx : context.Context) (id : Z) (s : store.LibraryStore) :
  store.GetBookByID ctx id s =
  if sqlx.closed (store.DB s) then
    (None, Some (fmt.Errorf_w "get book by id: " errors.errDBClosed), s)
  else
    match context.Err ctx, context.Err (context.tick ctx) with
    | Some err, _ | None, Some err =>
        (None, Some (fmt.Errorf_w "get book by id: " err), s)
    | None, None =>
        match filter (fun r => sqlx.col_id r =? id) (sqlx.books (store.DB s)) with
        | [] => (None, Some (fmt.Errorf_w "get book by id: " errors.ErrNoRows), s)
        | r :: _ => (Some (book_of_row r), None, s)
        end
    end.
Proof.
  destruct s as [db]. unfold_store. simpl.
  destruct (sqlx.closed db); [reflexivity |].
  destruct (context.Err ctx); [reflexivity |]. simpl.
  destruct (context.Err (context.tick ctx)); [reflexivity |].
  destruct (filter _ (sqlx.books db)); reflexivity.
Qed.

Lemma DeleteBook_cases (ctx : context.Context) (id : Z) (s : store.LibraryStore) :
  store.DeleteBook ctx id s =
  if sqlx.closed (store.DB s) then
    (Some (fmt.Errorf_w "delete book: " errors.errDBClosed), s)
  else
    match context.Err ctx with
    | Some err => (Some (fmt.Errorf_w "delete book: " err), s)
    | None =>
        (None,
         {| store.DB :=
              {| sqlx.closed := false;
                 sqlx.books :=
                   filter (fun r => negb (sqlx.col_id r =? id)) (sqlx.books (store.DB s));
                 sqlx.books_id_seq := sqlx.books_id_seq (store.DB s);
                 sqlx.now := sqlx.now (store.DB s) |} |})
    end.
Proof.
  destruct s as [db]. unfold_store. simpl.
  destruct (sqlx.closed db) eqn:C; [reflexivity |].
  destruct (context.Err ctx); reflexivity.
Qed.

(** What [GetBooks] returns: the books the iteration reads, in ascending
    id order, with no error once the query is under way. *)
Lemma GetBooks_cases (ctx : context.Context) (s : store.LibraryStore) :
  store.GetBooks ctx s =
  if sqlx.closed (store.DB s) then
    (None, Some (fmt.Errorf_w "get books: " errors.errDBClosed), s)
  else
    match context.Err ctx with
    | Some err => (None, Some (fmt.Errorf_w "get books: " err), s)
    | None =>
        (Some (map book_of_row
                 (delivered (context.tick ctx)
                    (sqlx.order_by_id (sqlx.books (store.DB s))))),
         None, s)
    end.
Proof.
  destruct s as [db]. unfold store.GetBooks, sqlx.QueryxContext, sqlx.conn. simpl.
  destruct (sqlx.closed db); [reflexivity |].
  destruct (context.Err ctx); [reflexivity |]. simpl.
  rewrite GetBooks_loop_delivered by reflexivity. simpl.
  rewrite fold_left_append. simpl.
  now destruct (map book_of_row _).
Qed.

Lemma CreateBook_wf (ctx : context.Context) (title author : string)
  (s : store.LibraryStore) :
  wf (store.DB s) -> wf (store.DB (snd (store.CreateBook ctx title author s))).
Proof.
  intros W.
  pose proof (execute_wf (sqlx.INSERT_INTO_books title author) _ W) as W'.
  revert W'. unfold_store.
  destruct (sqlx.closed (store.DB s)); [trivial |].
  destruct (context.Err ctx); [trivial |].
  destruct (sqlx.execute _ _) as [[res [err |]] db']; simpl; [trivial |].
  destruct res as [| r res]; simpl.
  - now destruct (context.Err (context.tick ctx)).
  - now destruct (context.Err (context.tick ctx)).
Qed.

Lemma DeleteBook_wf (ctx : context.Context) (id : Z) (s : store.LibraryStore) :
  wf (store.DB s) -> wf (store.DB (snd (store.DeleteBook ctx id s))).
Proof.
  intros W.
  pose proof (execute_wf (sqlx.DELETE_FROM_books id) _ W) as W'.
  rewrite DeleteBook_cases.
  destruct (sqlx.closed (store.DB s)) eqn:C; [trivial |].
  destruct (context.Err ctx); [trivial |].
  simpl in *. now rewrite C in W'.
Qed.

Lemma filter_fresh (db : sqlx.DB) :
  wf db ->
  filter (fun r => sqlx.col_id r =? sqlx.books_id_seq db) (sqlx.books db) = [].
Proof.
  intros (_ & _ & Hids & _).
  induction Hids as [| r l Hr _ IH]; simpl; [reflexivity |].
  rewrite IH. now replace (sqlx.col_id r =? sqlx.books_id_seq db) with false
    by (symmetry; apply Z.eqb_neq; lia).
Qed.

Lemma filter_none (id : Z) (l : list sqlx.BookRow) :
  (forall r, In r l -> sqlx.col_id r <> id) ->
  filter (fun r => sqlx.col_id r =? id) l = [] /\
  filter (fun r => negb (sqlx.col_id r =? id)) l = l.
Proof.
  induction l as [| x l IH]; simpl; intros N; [now split |].
  destruct (IH (fun r Hr => N r (or_intror Hr))) as [-> ->].
  now replace (sqlx.col_id x =? id) with false
    by (symmetry; apply Z.eqb_neq, N; now left).
Qed.

Lemma GetBookByID_store (ctx : context.Context) (id : Z) (s : store.LibraryStore) :
  snd (store.GetBookByID ctx id s) = s.
Proof.
  rewrite GetBookByID_cases.
  destruct (sqlx.closed (store.DB s)); [reflexivity |].
  destruct (context.Err ctx); [reflexivity |].
  destruct (context.Err (context.tick ctx)); [reflexivity |].
  now destruct (filter _ _).
Qed.

Lemma GetBooks_store (ctx : context.Context) (s : store.LibraryStore) :
  snd (store.GetBooks ctx s) = s.
Proof.
  rewrite GetBooks_cases.
  destruct (sqlx.closed (store.DB s)); [reflexivity |].
  now destruct (context.Err ctx).
Qed.

(** The invariant holds of the migrated database and after any calls of
    the store's methods. *)
Lemma store_after_wf (calls : list call) :
  forall s : store.LibraryStore,
    wf (store.DB s) -> wf (store.DB (fold_left store_after calls s)).
Proof.
  induction calls as [| c calls IH]; simpl; intros s W; [exact W |].
  apply IH. destruct c; simpl.
  - now apply CreateBook_wf.
  - now apply DeleteBook_wf.
  - now rewrite GetBookByID_store.
  - now rewrite GetBooks_store.
Qed.

(** The store that writes the id through the pointer stores the same row
    and reports the same error as the one that returns a new book. *)
Lemma CreateBook_in_place (ctx : context.Context) (book : library.Book)
  (s : store.LibraryStore) :
  match store_begin.CreateBook ctx book s,
        store.CreateBook ctx (library.Title book) (library.Author book) s with
  | (err, book', s1), (created, err', s2) =>
      err = err' /\ s1 = s2 /\
      match created with
      | Some b => book' = b
      | None => book' = book
      end
  end.
Proof.
  unfold store_begin.CreateBook, store.CreateBook, sqlx.GetContext,
    sqlx.QueryRowxContext, sqlx.QueryxContext, sqlx.conn.
  destruct (sqlx.closed (store.DB s)); [now destruct book |].
  destruct (context.Err ctx); [now destruct book |].
  destruct (sqlx.execute _ _) as [[res [err |]] db]; [now destruct book |].
  unfold sqlx.Row_Scan, sqlx.Next, sqlx.Scan, sqlx.Err. simpl.
  destruct (context.Err (context.tick ctx)); [now destruct book |].
  destruct res; simpl; now destruct book.
Qed.

(** A row of the table is the one row with its id. *)
Lemma filter_id (l : list sqlx.BookRow) (r : sqlx.BookRow) :
  StronglySorted Z.lt (map sqlx.col_id l) -> In r l ->
  filter (fun x => sqlx.col_id x =? sqlx.col_id r) l = [r].
Proof.
  induction l as [| x l IH]; simpl; intros SS I; [contradiction |].
  inversion SS as [| ? ? SS' F]; subst.
  rewrite Forall_map, Forall_forall in F.
  destruct I as [-> | I].
  - rewrite Z.eqb_refl. f_equal.
    apply (proj1 (filter_none (sqlx.col_id r) l
                    (fun y Hy => Z.neq_sym _ _ (Z.lt_neq _ _ (F y Hy))))).
  - replace (sqlx.col_id x =? sqlx.col_id r) with false
      by (symmetry; apply Z.eqb_neq, Z.lt_neq, F, I).
    now apply IH.
Qed.

Lemma CreateBook_books (ctx : context.Context) (title author : string)
  (s : store.LibraryStore) :
  sqlx.closed (store.DB (snd (store.CreateBook ctx title author s))) =
  sqlx.closed (store.DB s) /\
  exists rows,
    sqlx.books (store.DB (snd (store.CreateBook ctx title author s))) =
    sqlx.books (store.DB s) ++ rows.
Proof.
  destruct s as [db]. unfold_store. simpl.
  assert (Same : db = db /\ exists rows : list sqlx.BookRow,
                   sqlx.books db = sqlx.books db ++ rows)
    by (split; [reflexivity |]; exists []; now rewrite app_nil_r).
  destruct (sqlx.closed db) eqn:C; simpl; [rewrite C; split; tauto |].
  destruct (context.Err ctx); simpl; [rewrite C; split; tauto |].
  destruct (sqlx.max_int8 <? sqlx.books_id_seq db); simpl.
  { destruct (context.Err (context.tick ctx)); simpl; rewrite C; split; tauto. }
  destruct (String.length author =? 0)%nat; simpl; [split; tauto |].
  destruct (String.length title =? 0)%nat; simpl; [split; tauto |].
  destruct (existsb _ (sqlx.books db)); simpl; [split; tauto |].
  destruct (context.Err (context.tick ctx)); simpl; split; trivial; now eexists.
Qed.

(** No call closes the handle, and only a [DeleteBook] of its id removes
    a row. *)
Lemma store_after_keeps (r : sqlx.BookRow) (calls : list call) :
  forall s : store.LibraryStore,
    In r (sqlx.books (store.DB s)) ->
    Forall (keeps (sqlx.col_id r)) calls ->
    In r (sqlx.books (store.DB (fold_left store_after calls s))) /\
    sqlx.closed (store.DB (fold_left store_after calls s)) =
    sqlx.closed (store.DB s).
Proof.
  induction calls as [| c calls IH]; simpl; intros s I K; [now split |].
  inversion K as [| ? ? Kc K']; subst.
  assert (In r (sqlx.books (store.DB (store_after s c))) /\
          sqlx.closed (store.DB (store_after s c)) = sqlx.closed (store.DB s))
    as [I1 C1].
  { destruct c as [ctx title author | ctx id | ctx id | ctx]; simpl in *.
    - destruct (CreateBook_books ctx title author s) as (C & rows & B).
      split; [| exact C]. rewrite B. apply in_or_app. now left.
    - rewrite DeleteBook_cases.
      destruct (sqlx.closed (store.DB s)) eqn:C; [now split |].
      destruct (context.Err ctx); [now split |]. simpl.
      split; [| reflexivity]. apply filter_In. split; [exact I |].
      apply negb_true_iff, Z.eqb_neq. congruence.
    - now rewrite GetBookByID_store.
    - now rewrite GetBooks_store. }
  destruct (IH _ I1 K') as [I2 C2]. split; [exact I2 |]. now rewrite C2.
Qed.

(** ** The service over any store *)

Section AnyStore.

Context {S : Type} `{service.LibraryStore S}.

(** A blank field is refused before the store is looked at. *)
Lemma AddBook_blank (ctx : context.Context) (req : service.AddBookRequest)
  (ls : service.LibraryService S) :
  service.AddBookRequest_Title req = "" \/ service.AddBookRequest_Author req = "" ->
  exists e,
    ValidationError e = true /\
    service.AddBook ctx req ls = (Returns (None, Some e), ls, []).
Proof.
  unfold service.AddBook.
  destruct (String.eqb_spec (service.AddBookRequest_Title req) "") as [Et | Et].
  - intros _. now eexists.
  - intros [E | E]; [contradiction |]. rewrite E; simpl. now eexists.
Qed.

(** With both fields set, [AddBook] hands the request's title and author
    to the store and returns what the store returns: its book in the
    response, or its error wrapped. *)
Lemma AddBook_delegates (ctx : context.Context) (req : service.AddBookRequest)
  (st : S) :
  service.AddBookRequest_Title req <> "" ->
  service.AddBookRequest_Author req <> "" ->
  service.AddBook ctx req {| service.Store := Some st |} =
  match service.LibraryStore_CreateBook ctx (service.AddBookRequest_Title req)
          (service.AddBookRequest_Author req) st with
  | (_, Some err, st') =>
      (Returns (None, Some (fmt.Errorf_w "add book: " err)),
       {| service.Store := Some st' |}, [])
  | (None, None, st') =>
      (Panics service.nil_dereference, {| service.Store := Some st' |}, [])
  | (Some book, None, st') =>
      (Returns (Some {| service.AddBookResponse_Book := Some book |}, None),
       {| service.Store := Some st' |},
       ["added book " ++ fmt.d (library.ID book) ++ ": " ++
        library.Title book ++ service.newline]%string)
  end.
Proof.
  intros Et Ea. unfold service.AddBook.
  destruct (String.eqb_spec (service.AddBookRequest_Title req) ""); [contradiction |].
  destruct (String.eqb_spec (service.AddBookRequest_Author req) ""); [contradiction |].
  reflexivity.
Qed.

End AnyStore.

(** ** [AddBook] *)

(** C1.  A request with a blank title or a blank author makes [AddBook]
    return a validation error and nothing else: the service and its mock
    store are returned as they were, so [CreateBook] was not called and
    the call log has the entries it had (none, for a new mock).
    Conversely the log of the mock changes only if both fields are set. *)
Theorem AddBook_blank_field_rejected
  (ctx : context.Context) (req : service.AddBookRequest)
  (ms : service_test.mockStore) :
  (service.AddBookRequest_Title req = "" \/ service.AddBookRequest_Author req = "" ->
   exists e,
     ValidationError e = true /\
     service.AddBook ctx req {| service.Store := Some ms |} =
     (Returns (None, Some e), {| service.Store := Some ms |}, [])) /\
  (forall ms',
     snd (fst (service.AddBook ctx req {| service.Store := Some ms |})) =
     {| service.Store := Some ms' |} ->
     service_test.CreateBookCalledWith ms' <> service_test.CreateBookCalledWith ms ->
     service.AddBookRequest_Title req <> "" /\
     service.AddBookRequest_Author req <> "").
Proof.
  split.
  - apply AddBook_blank.
  - intros ms' M D.
    destruct (String.eqb_spec (service.AddBookRequest_Title req) "") as [Et | Et];
      [| destruct (String.eqb_spec (service.AddBookRequest_Author req) "") as [Ea | Ea]];
      [| | now split].
    + destruct (AddBook_blank ctx req {| service.Store := Some ms |} (or_introl Et))
        as (e & _ & E).
      rewrite E in M; simpl in M. inversion M; subst. now contradiction D.
    + destruct (AddBook_blank ctx req {| service.Store := Some ms |} (or_intror Ea))
        as (e & _ & E).
      rewrite E in M; simpl in M. inversion M; subst. now contradiction D.
Qed.

Lemma AddBook_blank_field_rejected_witness :
  exists e,
    ValidationError e = true /\
    service.AddBook context.Background
      {| service.AddBookRequest_Title := "";
         service.AddBookRequest_Author := "Frank Herbert" |}
      {| service.Store := Some service_test.test_store |} =
    (Returns (None, Some e), {| service.Store := Some service_test.test_store |}, []) /\
    len (service_test.CreateBookCalledWith service_test.test_store) = 0%nat.
Proof.
  destruct (AddBook_blank_field_rejected context.Background
              {| service.AddBookRequest_Title := "";
                 service.AddBookRequest_Author := "Frank Herbert" |}
              service_test.test_store) as [A _].
  destruct (A (or_introl eq_refl)) as (e & V & E).
  exists e. repeat split; [exact V | exact E].
Defined.

(** C2.  With a title and an author, and the store's [CreateBook]
    succeeding, [AddBook] returns the created book: its id is not zero
    and its title and author are the request's, character for character. *)
Theorem AddBook_returns_created_book
  (ctx : context.Context) (req : service.AddBookRequest)
  (s s' : store.LibraryStore) (created : option library.Book) :
  wf (store.DB s) ->
  service.AddBookRequest_Title req <> "" ->
  service.AddBookRequest_Author req <> "" ->
  store.CreateBook ctx (service.AddBookRequest_Title req)
    (service.AddBookRequest_Author req) s = (created, None, s') ->
  exists book lg,
    service.AddBook ctx req {| service.Store := Some s |} =
    (Returns (Some {| service.AddBookResponse_Book := Some book |}, None),
     {| service.Store := Some s' |}, lg) /\
    library.ID book <> 0 /\
    library.Title book = service.AddBookRequest_Title req /\
    library.Author book = service.AddBookRequest_Author req.
Proof.
  intros W Et Ea C.
  rewrite (AddBook_delegates ctx req s Et Ea). simpl. rewrite C.
  destruct (CreateBook_inv _ _ _ _ _ _ C) as (-> & _).
  destruct W as (Hseq & _).
  do 2 eexists. split; [reflexivity |]. simpl. repeat split. lia.
Qed.

Lemma AddBook_returns_created_book_witness :
  exists book lg,
    service.AddBook context.Background
      {| service.AddBookRequest_Title := "Dune";
         service.AddBookRequest_Author := "Frank Herbert" |}
      {| service.Store := Some {| store.DB := sqlx.migrated 0 |} |} =
    (Returns (Some {| service.AddBookResponse_Book := Some book |}, None),
     {| service.Store := Some (snd (store.CreateBook context.Background
                                     "Dune" "Frank Herbert"
                                     {| store.DB := sqlx.migrated 0 |})) |}, lg) /\
    library.ID book <> 0 /\
    library.Title book = "Dune" /\
    library.Author book = "Frank Herbert".
Proof.
  refine (AddBook_returns_created_book context.Background
            {| service.AddBookRequest_Title := "Dune";
               service.AddBookRequest_Author := "Frank Herbert" |}
            {| store.DB := sqlx.migrated 0 |} _ _ _ _ _ _).
  - repeat split; simpl; try constructor; lia.
  - discriminate.
  - discriminate.
  - vm_compute. reflexivity.
Defined.

(** ** Reading books back *)

(** C3.  A book that [AddBook] created is what [GetBook] returns for its
    id, right away and after any further calls of the store that do not
    delete it: the same id, title and author, which are the title and
    author of the request. *)
Theorem GetBook_after_AddBook
  (ctx ctx' : context.Context) (req : service.AddBookRequest)
  (s : store.LibraryStore) (book : library.Book)
  (ls' : service.LibraryService store.LibraryStore) (lg : list string)
  (calls : list call) :
  wf (store.DB s) ->
  service.AddBook ctx req {| service.Store := Some s |} =
  (Returns (Some {| service.AddBookResponse_Book := Some book |}, None), ls', lg) ->
  Forall (keeps (library.ID book)) calls ->
  live 1 ctx' ->
  service.GetBook ctx' {| service.GetBookRequest_ID := library.ID book |}
    (service_after calls ls') =
  (Returns (Some {| service.GetBookResponse_Book := Some book |}, None),
   service_after calls ls', []) /\
  library.Title book = service.AddBookRequest_Title req /\
  library.Author book = service.AddBookRequest_Author req.
Proof.
  intros W A K L.
  destruct (String.eqb_spec (service.AddBookRequest_Title req) "") as [Et | Et].
  { destruct (AddBook_blank ctx req {| service.Store := Some s |} (or_introl Et))
      as (e & _ & E). rewrite E in A. discriminate. }
  destruct (String.eqb_spec (service.AddBookRequest_Author req) "") as [Ea | Ea].
  { destruct (AddBook_blank ctx req {| service.Store := Some s |} (or_intror Ea))
      as (e & _ & E). rewrite E in A. discriminate. }
  rewrite (AddBook_delegates ctx req s Et Ea) in A. simpl in A. revert A.
  destruct (store.CreateBook _ _ _ s) as [[created [err |]] s'] eqn:C.
  1: destruct created; discriminate.
  pose proof (CreateBook_wf ctx (service.AddBookRequest_Title req)
                (service.AddBookRequest_Author req) s W) as W'.
  rewrite C in W'; simpl in W'.
  destruct (CreateBook_inv _ _ _ _ _ _ C) as (-> & D & _).
  intros A; inversion A; subst; clear A. simpl in K |- *.
  split; [| now split].
  set (r := inserted_row (service.AddBookRequest_Title req)
              (service.AddBookRequest_Author req) (store.DB s)).
  assert (I : In r (sqlx.books (store.DB s'))).
  { rewrite D; simpl. apply in_or_app; right; now left. }
  destruct (store_after_keeps r calls s' I K) as [I2 C2].
  pose proof (store_after_wf calls s' W') as (_ & Sorted2 & _).
  unfold service_after, service.GetBook; simpl.
  rewrite GetBookByID_cases, C2, D; simpl.
  pose proof (live_0 _ _ L) as L0. apply live_S in L as [_ L1]. apply live_0 in L1.
  rewrite L0, L1.
  change (sqlx.books_id_seq (store.DB s)) with (sqlx.col_id r).
  now rewrite (filter_id _ r Sorted2 I2).
Qed.

Lemma GetBook_after_AddBook_witness :
  let ls' := snd (fst (service.AddBook context.Background dune_request
                         {| service.Store := Some new_store |})) in
  let calls :=
    [CreateBookCall context.Background "Emma" "Jane Austen";
     DeleteBookCall context.Background 2;
     GetBooksCall (context.WithTimeout 1)] in
  service.GetBook context.Background {| service.GetBookRequest_ID := 1 |}
    (service_after calls ls') =
  (Returns (Some {| service.GetBookResponse_Book :=
                      Some {| library.ID := 1; library.Title := "Dune";
                              library.Author := "Frank Herbert" |} |}, None),
   service_after calls ls', []) /\
  "Dune" = service.AddBookRequest_Title dune_request /\
  "Frank Herbert" = service.AddBookRequest_Author dune_request.
Proof.
  refine (GetBook_after_AddBook context.Background context.Background
            dune_request new_store
            {| library.ID := 1; library.Title := "Dune";
               library.Author := "Frank Herbert" |}
            _ (snd (service.AddBook context.Background dune_request
                 {| service.Store := Some new_store |})) _ _ _ _ _).
  - repeat split; simpl; try constructor; lia.
  - vm_compute. reflexivity.
  - repeat constructor. simpl. lia.
  - reflexivity.
Defined.




(** C5.  For an id that no row has, on a healthy connection,
    [GetBookByID] fails with a not-found error, and [GetBook] fails with
    that error wrapped under its own operation: still a not-found error,
    which [Unwrap] gives back.  No other failure of [GetBookByID] is a
    not-found error. *)
Theorem GetBook_not_found :
  (forall (ctx : context.Context) (id : Z) (s : store.LibraryStore),
     sqlx.closed (store.DB s) = false ->
     live 1 ctx ->
     (forall r, In r (sqlx.books (store.DB s)) -> sqlx.col_id r <> id) ->
     exists e,
       store.GetBookByID ctx id s = (None, Some e, s) /\
       NotFoundError e = true /\
       service.GetBook ctx {| service.GetBookRequest_ID := id |}
         {| service.Store := Some s |} =
       (Returns (None, Some (fmt.Errorf_w "get book: " e)),
        {| service.Store := Some s |}, []) /\
       NotFoundError (fmt.Errorf_w "get book: " e) = true /\
       errors.Unwrap (fmt.Errorf_w "get book: " e) = Some e /\
       errors.Error (fmt.Errorf_w "get book: " e) =
       "get book: get book by id: sql: no rows in result set") /\
  (forall (ctx : context.Context) (id : Z) (s s' : store.LibraryStore)
          (book : option library.Book) (e : error),
     store.GetBookByID ctx id s = (book, Some e, s') ->
     NotFoundError e = true ->
     sqlx.closed (store.DB s) = false /\ live 1 ctx /\
     forall r, In r (sqlx.books (store.DB s)) -> sqlx.col_id r <> id).
Proof.
  split.
  - intros ctx id s C L N.
    pose proof (live_0 _ _ L) as L0. apply live_S in L as [_ L1]. apply live_0 in L1.
    assert (G : store.GetBookByID ctx id s =
                (None, Some (fmt.Errorf_w "get book by id: " errors.ErrNoRows), s)).
    { rewrite GetBookByID_cases, C, L0, L1.
      now destruct (filter_none id _ N) as [-> _]. }
    eexists. split; [exact G |]. split; [reflexivity |].
    split; [unfold service.GetBook; simpl; now rewrite G |].
    now repeat split.
  - intros ctx id s s' book e G NF.
    rewrite GetBookByID_cases in G.
    destruct (sqlx.closed (store.DB s)); [inversion G; subst; discriminate |].
    destruct (context.Err ctx) as [err |] eqn:E0.
    { inversion G; subst.
      destruct ctx as [| [| n] | [| n]]; simpl in E0; inversion E0; subst; discriminate. }
    destruct (context.Err (context.tick ctx)) as [err |] eqn:E1.
    { inversion G; subst.
      destruct ctx as [| [| [| n]] | [| [| n]]]; simpl in E1; inversion E1; subst;
        discriminate. }
    split; [reflexivity |]. split.
    + unfold live. rewrite after_S. exact E1.
    + intros r Hr Eid.
      destruct (filter _ (sqlx.books (store.DB s))) as [| x l] eqn:F; [| discriminate].
      assert (In r []) as []. rewrite <- F. apply filter_In. split; [exact Hr |].
      now apply Z.eqb_eq.
Qed.

Lemma GetBook_not_found_witness :
  exists e,
    store.GetBookByID context.Background 42 new_store = (None, Some e, new_store) /\
    NotFoundError e = true /\
    service.GetBook context.Background {| service.GetBookRequest_ID := 42 |}
      {| service.Store := Some new_store |} =
    (Returns (None, Some (fmt.Errorf_w "get book: " e)),
     {| service.Store := Some new_store |}, []) /\
    NotFoundError (fmt.Errorf_w "get book: " e) = true /\
    errors.Unwrap (fmt.Errorf_w "get book: " e) = Some e /\
    errors.Error (fmt.Errorf_w "get book: " e) =
    "get book: get book by id: sql: no rows in result set".
Proof.
  refine (proj1 GetBook_not_found context.Background 42 new_store _ _ _).
  - reflexivity.
  - reflexivity.
  - simpl. intros r [].
Defined.

(** ** Deleting *)

Lemma filter_filter {A : Type} (f : A -> bool) (l : list A) :
  filter f (filter f l) = filter f l.
Proof.
  induction l as [| x l IH]; simpl; [reflexivity |].
  destruct (f x) eqn:E; simpl; rewrite ?E, IH; reflexivity.
Qed.

(** C6.  On a healthy connection [DeleteBook] returns no error for any
    id.  It leaves the rows with another id; when no row has the id the
    store is as before, and deleting again succeeds again. *)
Theorem DeleteBook_any_id
  (ctx : context.Context) (id : Z) (s : store.LibraryStore) :
  sqlx.closed (store.DB s) = false ->
  context.Err ctx = None ->
  exists s',
    store.DeleteBook ctx id s = (None, s') /\
    sqlx.books (store.DB s') =
    filter (fun r => negb (sqlx.col_id r =? id)) (sqlx.books (store.DB s)) /\
    ((forall r, In r (sqlx.books (store.DB s)) -> sqlx.col_id r <> id) -> s' = s) /\
    store.DeleteBook ctx id s' = (None, s').
Proof.
  intros C L. eexists. rewrite DeleteBook_cases, C, L.
  split; [reflexivity |]. split; [reflexivity |]. split.
  - intros N. destruct (filter_none id _ N) as [_ E]. simpl; rewrite E.
    destruct s as [[? ? ? ?]]; simpl in *. now subst.
  - rewrite DeleteBook_cases; simpl. rewrite L, filter_filter. reflexivity.
Qed.

Lemma DeleteBook_any_id_witness :
  exists s',
    store.DeleteBook context.Background 42 new_store = (None, s') /\
    sqlx.books (store.DB s') =
    filter (fun r => negb (sqlx.col_id r =? 42)) (sqlx.books (store.DB new_store)) /\
    ((forall r, In r (sqlx.books (store.DB new_store)) -> sqlx.col_id r <> 42) ->
     s' = new_store) /\
    store.DeleteBook context.Background 42 s' = (None, s').
Proof.
  refine (DeleteBook_any_id context.Background 42 new_store _ _); reflexivity.
Defined.

(** ** Listing *)

(** C7.  Whenever [GetBooks] returns no error its slice is not nil, and
    the service hands that slice on; on a healthy connection to an empty
    table the slice is the empty one. *)
Theorem GetBooks_never_nil (ctx : context.Context) (s : store.LibraryStore) :
  (forall (books : slice library.Book) (s' : store.LibraryStore),
     store.GetBooks ctx s = (books, None, s') ->
     books <> None /\
     (sqlx.books (store.DB s) = [] -> books = Some []) /\
     service.GetBooks ctx service.Build_GetBooksRequest {| service.Store := Some s |} =
     (Returns (Some {| service.GetBooksResponse_Books := books |}, None),
      {| service.Store := Some s' |}, [])) /\
  (sqlx.closed (store.DB s) = false ->
   context.Err ctx = None ->
   sqlx.books (store.DB s) = [] ->
   store.GetBooks ctx s = (Some [], None, s)).
Proof.
  split.
  - intros books s' G.
    split; [| split].
    + rewrite GetBooks_cases in G.
      destruct (sqlx.closed (store.DB s)); [discriminate |].
      destruct (context.Err ctx); [discriminate |].
      inversion G; discriminate.
    + intros E. rewrite GetBooks_cases, E in G.
      destruct (sqlx.closed (store.DB s)); [discriminate |].
      destruct (context.Err ctx); [discriminate |].
      simpl in G. destruct (context.Err (context.tick ctx)); now inversion G.
    + unfold service.GetBooks; simpl. now rewrite G.
  - intros C L E. rewrite GetBooks_cases, C, L, E. simpl.
    now destruct (context.Err (context.tick ctx)).
Qed.

Lemma GetBooks_never_nil_witness :
  store.GetBooks context.Background new_store = (Some [], None, new_store) /\
  Some [] <> (None : slice library.Book).
Proof.
  destruct (GetBooks_never_nil context.Background new_store) as [A B].
  pose proof (B eq_refl eq_refl eq_refl) as G.
  split; [exact G |]. exact (proj1 (A _ _ G)).
Defined.

(** ** Errors on the way up *)

(** Every error a store method or a service method gets back from the
    call it makes is returned wrapped under the method's own description,
    and both [Unwrap] and [errors.Is] find the cause again. *)
Lemma CreateBook_wraps (ctx : context.Context) (title author : string)
  (s s' : store.LibraryStore) (book : option library.Book) (e : error) :
  store.CreateBook ctx title author s = (book, Some e, s') ->
  exists id cause,
    sqlx.GetContext ctx 0 (sqlx.INSERT_INTO_books title author) (store.DB s) =
    (id, Some cause, store.DB s') /\
    e = fmt.Errorf_w "create book: " cause /\ book = None.
Proof.
  unfold store.CreateBook.
  destruct (sqlx.GetContext _ _ _ _) as [[id [cause |]] db] eqn:G;
    intros E; inversion E; subst; clear E.
  now exists id, cause.
Qed.




Lemma service_wraps {S : Type} `{service.LibraryStore S}
  (ctx : context.Context) (st : S) :
  (forall req book cause st',
     service.AddBookRequest_Title req <> "" ->
     service.AddBookRequest_Author req <> "" ->
     service.LibraryStore_CreateBook ctx (service.AddBookRequest_Title req)
       (service.AddBookRequest_Author req) st = (book, Some cause, st') ->
     service.AddBook ctx req {| service.Store := Some st |} =
     (Returns (None, Some (fmt.Errorf_w "add book: " cause)),
      {| service.Store := Some st' |}, [])) /\
  (forall req book cause st',
     service.LibraryStore_GetBookByID ctx (service.GetBookRequest_ID req) st =
     (book, Some cause, st') ->
     service.GetBook ctx req {| service.Store := Some st |} =
     (Returns (None, Some (fmt.Errorf_w "get book: " cause)),
      {| service.Store := Some st' |}, [])) /\
  (forall req books cause st',
     service.LibraryStore_GetBooks ctx st = (books, Some cause, st') ->
     service.GetBooks ctx req {| service.Store := Some st |} =
     (Returns (None, Some (fmt.Errorf_w "get books: " cause)),
      {| service.Store := Some st' |}, [])).
Proof.
  repeat split.
  - intros req book cause st' Et Ea C. rewrite AddBook_delegates by assumption.
    rewrite C. now destruct book.
  - intros req book cause st' C. unfold service.GetBook; simpl. rewrite C.
    now destruct book.
  - intros req books cause st' C. unfold service.GetBooks; simpl. rewrite C.
    now destruct books.
Qed.

(** C8.  Every error is to come back wrapped and none is to be dropped;
    here [GetBooks] drops one.  Its query runs under a deadline that
    passes after the first of three rows is read:
    [rows.Next()] returns false, the loop ends, and [rows.Err()], which
    holds the deadline error, is never looked at.  [GetBooks] returns the
    one book with a nil error, and so does the service. *)
Theorem GetBooks_drops_iteration_error :
  (exists rows,
     sqlx.QueryxContext (context.WithTimeout 2) sqlx.SELECT_FROM_books_ORDER_BY_id
       (store.DB three_books_store) = (inl rows, store.DB three_books_store) /\
     List.length (sqlx.pending rows) = 3%nat /\
     sqlx.Err (snd (store.GetBooks_loop rows (Some []))) =
     Some errors.DeadlineExceeded) /\
  store.GetBooks (context.WithTimeout 2) three_books_store =
  (Some [norse_mythology], None, three_books_store) /\
  service.GetBooks (context.WithTimeout 2) service.Build_GetBooksRequest
    {| service.Store := Some three_books_store |} =
  (Returns (Some {| service.GetBooksResponse_Books := Some [norse_mythology] |}, None),
   {| service.Store := Some three_books_store |}, []).
Proof.
  split; [| split].
  - eexists. split; [vm_compute; reflexivity |]. split; vm_compute; reflexivity.
  - vm_compute. reflexivity.
  - vm_compute. reflexivity.
Qed.

(** ** The mock store *)

(** C9.  Called with no behaviour function set, the mock's [CreateBook]
    returns [ErrMockNotImplemented] and no book; [AddBook] passes the
    error on as [add book: mock not implemented]. *)
Theorem mock_CreateBook_not_implemented
  (ctx : context.Context) (title author : string) (ms : service_test.mockStore) :
  service_test.CreateBookFn ms = None ->
  service_test.CreateBook ctx title author ms =
  (None, Some errors.ErrMockNotImplemented, ms) /\
  (title <> "" -> author <> "" ->
   exists e,
     service.AddBook ctx
       {| service.AddBookRequest_Title := title;
          service.AddBookRequest_Author := author |}
       {| service.Store := Some ms |} =
     (Returns (None, Some e), {| service.Store := Some ms |}, []) /\
     errors.Is e errors.ErrMockNotImplemented = true /\
     errors.Error e = "add book: mock not implemented").
Proof.
  intros N.
  assert (C : service_test.CreateBook ctx title author ms =
              (None, Some errors.ErrMockNotImplemented, ms))
    by (unfold service_test.CreateBook; now rewrite N).
  split; [exact C |].
  intros Et Ea. eexists. rewrite AddBook_delegates by assumption.
  simpl. rewrite C. now repeat split.
Qed.

Lemma mock_CreateBook_not_implemented_witness :
  service_test.CreateBook context.Background "Dune" "Frank Herbert" new_mock =
  (None, Some errors.ErrMockNotImplemented, new_mock) /\
  ("Dune" <> "" -> "Frank Herbert" <> "" ->
   exists e,
     service.AddBook context.Background
       {| service.AddBookRequest_Title := "Dune";
          service.AddBookRequest_Author := "Frank Herbert" |}
       {| service.Store := Some new_mock |} =
     (Returns (None, Some e), {| service.Store := Some new_mock |}, []) /\
     errors.Is e errors.ErrMockNotImplemented = true /\
     errors.Error e = "add book: mock not implemented").
Proof.
  refine (mock_CreateBook_not_implemented context.Background
            "Dune" "Frank Herbert" new_mock _).
  reflexivity.
Defined.

Lemma run_log (actions : list service_test.action) :
  forall ms : service_test.mockStore,
    elems (service_test.CreateBookCalledWith (service_test.run ms actions)) =
    elems (service_test.CreateBookCalledWith ms) ++
    service_test.configured_calls (service_test.CreateBookFn ms) actions.
Proof.
  unfold service_test.run.
  induction actions as [| a actions IH]; intros ms; simpl.
  - now rewrite app_nil_r.
  - rewrite IH. destruct a as [fn | ctx title author]; simpl; [reflexivity |].
    unfold service_test.CreateBook.
    destruct (service_test.CreateBookFn ms) as [fn |] eqn:F; simpl; rewrite ?F.
    + now rewrite <- app_assoc.
    + reflexivity.
Qed.

(** C10.  A call of the mock's [CreateBook] with no behaviour function
    set leaves the mock, and so its call log, as it was; a call with one
    set appends its arguments as the last entry.  So after any run of
    calls and settings of the function, the log is the log of before
    followed by the arguments of the calls made while a function was
    set, one entry each, in call order. *)
Theorem mock_call_log (ms : service_test.mockStore) :
  (forall ctx title author,
     service_test.CreateBookFn ms = None ->
     snd (service_test.CreateBook ctx title author ms) = ms) /\
  (forall ctx title author fn,
     service_test.CreateBookFn ms = Some fn ->
     service_test.CreateBookCalledWith
       (snd (service_test.CreateBook ctx title author ms)) =
     Some (elems (service_test.CreateBookCalledWith ms) ++
           [{| service_test.Ctx := ctx; service_test.Title := title;
               service_test.Author := author |}]) /\
     len (service_test.CreateBookCalledWith
            (snd (service_test.CreateBook ctx title author ms))) =
     S (len (service_test.CreateBookCalledWith ms))) /\
  (forall actions,
     elems (service_test.CreateBookCalledWith (service_test.run ms actions)) =
     elems (service_test.CreateBookCalledWith ms) ++
     service_test.configured_calls (service_test.CreateBookFn ms) actions).
Proof.
  split; [| split].
  - intros ctx title author N. unfold service_test.CreateBook. now rewrite N.
  - intros ctx title author fn F. unfold service_test.CreateBook. rewrite F. simpl.
    split; [reflexivity |]. rewrite length_app. simpl.
    destruct (service_test.CreateBookCalledWith ms); simpl; lia.
  - intros actions. apply run_log.
Qed.

Lemma mock_call_log_witness :
  elems (service_test.CreateBookCalledWith
           (service_test.run new_mock
              [service_test.CallCreateBook context.Background "Dune" "Frank Herbert";
               service_test.SetCreateBookFn
                 (service_test.CreateBookFn service_test.test_store);
               service_test.CallCreateBook context.Background "Norse Mythology" "Neil Gaiman";
               service_test.SetCreateBookFn None;
               service_test.CallCreateBook context.Background "Emma" "Jane Austen"])) =
  [{| service_test.Ctx := context.Background;
      service_test.Title := "Norse Mythology";
      service_test.Author := "Neil Gaiman" |}].
Proof.
  exact (proj2 (proj2 (mock_call_log new_mock)) _).
Defined.

(** ** The cases of [TestLibraryService_AddBook] *)

Example TestLibraryService_AddBook :
  let svc := {| service.Store := Some service_test.test_store |} in
  let add title author :=
    service.AddBook context.Background
      {| service.AddBookRequest_Title := title;
         service.AddBookRequest_Author := author |} svc in
  fst (fst (add "" "")) =
    Returns (None, Some (fmt.Errorf "add book: title can't be blank")) /\
  fst (fst (add "" "Frank Herbert")) =
    Returns (None, Some (fmt.Errorf "add book: title can't be blank")) /\
  fst (fst (add "Dune" "")) =
    Returns (None, Some (fmt.Errorf "add book: author can't be blank")) /\
  fst (fst (add "Dune" "Frank Herbert")) =
    Returns (Some {| service.AddBookResponse_Book :=
                       Some {| library.ID := 123; library.Title := "Dune";
                               library.Author := "Frank Herbert" |} |}, None) /\
  option_map service_test.CreateBookCalledWith
    (service.Store (snd (fst (add "Dune" "Frank Herbert")))) =
    Some (Some [{| service_test.Ctx := context.Background;
                   service_test.Title := "Dune";
                   service_test.Author := "Frank Herbert" |}]) /\
  snd (add "Dune" "Frank Herbert") =
    ["added book 123: Dune" ++ service.newline]%string.
Proof. vm_compute. repeat split. Qed.

(** * More properties of the store, the service and the tests *)

(** ** The store *)

Lemma StronglySorted_lt_NoDup (l : list Z) : StronglySorted Z.lt l -> NoDup l.
Proof.
  induction 1 as [| a l SS IH F]; constructor; [| exact IH].
  intros I. rewrite Forall_forall in F. specialize (F a I). lia.
Qed.

(** X1.  From the migrated database on, whatever calls the store serves,
    the rows of [books] have distinct ids, each at least 1 and below the
    next value of the sequence, ascending in the order of insertion, and
    no row has an empty title or author. *)
Theorem stored_rows_invariant (t : Z) (calls : list call) :
  let db := store.DB (fold_left store_after calls {| store.DB := sqlx.migrated t |}) in
  NoDup (map sqlx.col_id (sqlx.books db)) /\
  StronglySorted Z.lt (map sqlx.col_id (sqlx.books db)) /\
  Forall (fun r => 1 <= sqlx.col_id r < sqlx.books_id_seq db /\
                   sqlx.col_title r <> "" /\ sqlx.col_author r <> "")
         (sqlx.books db).
Proof.
  intros db.
  destruct (store_after_wf calls {| store.DB := sqlx.migrated t |} (wf_migrated t))
    as (_ & SS & Hids & Hchk).
  fold db in SS, Hids, Hchk.
  split; [now apply StronglySorted_lt_NoDup |]. split; [exact SS |].
  rewrite Forall_forall in *. intros r Hr. split; [now apply Hids | now apply Hchk].
Qed.

(** X2.  The table refuses a book without a title or without an author:
    on a healthy connection [CreateBook] returns no book and an error
    that wraps the check violation of the server, and the rows of the
    table are as before. *)
Theorem CreateBook_blank_refused_by_table
  (ctx : context.Context) (title author : string) (s : store.LibraryStore) :
  sqlx.closed (store.DB s) = false ->
  live 1 ctx ->
  sqlx.books_id_seq (store.DB s) <= sqlx.max_int8 ->
  title = "" \/ author = "" ->
  exists constraint s',
    store.CreateBook ctx title author s =
    (None, Some (fmt.Errorf_w "create book: " (sqlx.check_violation constraint)), s') /\
    (constraint = "books_title_check" \/ constraint = "books_author_check") /\
    sqlx.books (store.DB s') = sqlx.books (store.DB s).
Proof.
  intros C L Hmax B. pose proof (live_0 _ _ L) as L0.
  destruct s as [db]. simpl in *. unfold_store. simpl. rewrite C, L0.
  replace (sqlx.max_int8 <? sqlx.books_id_seq db) with false
    by (symmetry; apply Z.ltb_ge; assumption).
  destruct (String.length author =? 0)%nat eqn:Ea; simpl.
  - exists "books_author_check". eexists. split; [reflexivity |]. split; [now right | reflexivity].
  - destruct B as [-> | ->]; [| discriminate]. simpl.
    exists "books_title_check". eexists. split; [reflexivity |]. split; [now left | reflexivity].
Qed.

Lemma CreateBook_blank_refused_by_table_witness :
  exists constraint s',
    store.CreateBook context.Background "" "Frank Herbert" new_store =
    (None, Some (fmt.Errorf_w "create book: " (sqlx.check_violation constraint)), s') /\
    (constraint = "books_title_check" \/ constraint = "books_author_check") /\
    sqlx.books (store.DB s') = sqlx.books (store.DB new_store).
Proof.
  refine (CreateBook_blank_refused_by_table context.Background "" "Frank Herbert"
            new_store _ _ _ _).
  - reflexivity.
  - reflexivity.
  - vm_compute. intros E; inversion E.
  - left; reflexivity.
Defined.

(** X3.  The [CreateBook] that writes the id through the pointer and the
    [CreateBook] that returns a new book do the same: the same error,
    the same database afterwards; on success the book behind the pointer
    is the book the other returns, on failure it is untouched. *)
Theorem CreateBook_pointer_agrees
  (ctx : context.Context) (book : library.Book) (s : store.LibraryStore) :
  let r1 := store_begin.CreateBook ctx book s in
  let r2 := store.CreateBook ctx (library.Title book) (library.Author book) s in
  fst (fst r1) = snd (fst r2) /\
  snd r1 = snd r2 /\
  (snd (fst r2) = None -> fst (fst r2) = Some (snd (fst r1))) /\
  (snd (fst r2) <> None -> snd (fst r1) = book).
Proof.
  intros r1 r2. subst r1 r2. pose proof (CreateBook_in_place ctx book s) as P.
  destruct (store_begin.CreateBook ctx book s) as [[err book'] s1].
  destruct (store.CreateBook ctx (library.Title book) (library.Author book) s)
    as [[created err'] s2] eqn:E.
  simpl. destruct P as (-> & -> & P). repeat split.
  - intros ->. destruct (CreateBook_inv _ _ _ _ _ _ E) as (-> & _). now rewrite P.
  - intros N. destruct err' as [e |]; [| contradiction].
    destruct (CreateBook_wraps _ _ _ _ _ _ _ E) as (_ & _ & _ & _ & ->). exact P.
Qed.

Lemma filter_not_fresh (db : sqlx.DB) :
  wf db ->
  filter (fun r => negb (sqlx.col_id r =? sqlx.books_id_seq db)) (sqlx.books db) =
  sqlx.books db.
Proof.
  intros (_ & _ & Hids & _). apply filter_none.
  rewrite Forall_forall in Hids. intros r Hr. specialize (Hids r Hr). lia.
Qed.

(** X4.  Deleting the book that [CreateBook] just stored puts the rows
    of the table back as they were; the id is used up. *)
Theorem DeleteBook_undoes_CreateBook
  (ctx ctx' : context.Context) (title author : string)
  (s s1 : store.LibraryStore) (book : library.Book) :
  wf (store.DB s) ->
  store.CreateBook ctx title author s = (Some book, None, s1) ->
  context.Err ctx' = None ->
  exists s2,
    store.DeleteBook ctx' (library.ID book) s1 = (None, s2) /\
    sqlx.books (store.DB s2) = sqlx.books (store.DB s) /\
    sqlx.books_id_seq (store.DB s2) = sqlx.books_id_seq (store.DB s) + 1.
Proof.
  intros W C L.
  destruct (CreateBook_inv _ _ _ _ _ _ C) as (B & D & _).
  inversion B; subst; clear B. simpl.
  rewrite DeleteBook_cases, D; simpl. rewrite L.
  eexists. split; [reflexivity |]. simpl. split; [| reflexivity].
  rewrite filter_app, (filter_not_fresh _ W). simpl.
  rewrite Z.eqb_refl. simpl. apply app_nil_r.
Qed.

Lemma DeleteBook_undoes_CreateBook_witness :
  exists s2,
    store.DeleteBook context.Background 1
      (snd (store.CreateBook context.Background "Dune" "Frank Herbert" new_store)) =
    (None, s2) /\
    sqlx.books (store.DB s2) = sqlx.books (store.DB new_store) /\
    sqlx.books_id_seq (store.DB s2) = sqlx.books_id_seq (store.DB new_store) + 1.
Proof.
  refine (DeleteBook_undoes_CreateBook context.Background context.Background
            "Dune" "Frank Herbert" new_store _
            {| library.ID := 1; library.Title := "Dune";
               library.Author := "Frank Herbert" |} _ _ _).
  - repeat split; simpl; try constructor; lia.
  - vm_compute. reflexivity.
  - reflexivity.
Defined.

Lemma filter_filter_neg (id : Z) (l : list sqlx.BookRow) :
  filter (fun r => sqlx.col_id r =? id)
    (filter (fun r => negb (sqlx.col_id r =? id)) l) = [].
Proof.
  induction l as [| x l IH]; simpl; [reflexivity |].
  destruct (sqlx.col_id x =? id) eqn:E; simpl; rewrite ?E; exact IH.
Qed.

Lemma filter_filter_other (id id' : Z) (l : list sqlx.BookRow) :
  id' <> id ->
  filter (fun r => sqlx.col_id r =? id')
    (filter (fun r => negb (sqlx.col_id r =? id)) l) =
  filter (fun r => sqlx.col_id r =? id') l.
Proof.
  intros N. induction l as [| x l IH]; simpl; [reflexivity |].
  destruct (sqlx.col_id x =? id) eqn:E; simpl.
  - apply Z.eqb_eq in E.
    replace (sqlx.col_id x =? id') with false
      by (symmetry; apply Z.eqb_neq; congruence).
    exact IH.
  - destruct (sqlx.col_id x =? id'); [f_equal |]; exact IH.
Qed.

(** X5.  After a [DeleteBook] that returned no error, [GetBookByID] of
    the deleted id fails with a not-found error, and [GetBookByID] of
    any other id returns what it returned before the delete. *)
Theorem GetBookByID_after_DeleteBook
  (ctx ctx' : context.Context) (id : Z) (s s1 : store.LibraryStore) :
  store.DeleteBook ctx id s = (None, s1) ->
  live 1 ctx' ->
  (exists e,
     store.GetBookByID ctx' id s1 = (None, Some e, s1) /\
     NotFoundError e = true) /\
  (forall id', id' <> id ->
     fst (store.GetBookByID ctx' id' s1) = fst (store.GetBookByID ctx' id' s)).
Proof.
  intros D L.
  pose proof (live_0 _ _ L) as L0. apply live_S in L as [_ L1]. apply live_0 in L1.
  rewrite DeleteBook_cases in D.
  destruct (sqlx.closed (store.DB s)) eqn:C; [discriminate |].
  destruct (context.Err ctx); [discriminate |].
  inversion D; subst; clear D. split.
  - eexists. rewrite GetBookByID_cases; simpl. rewrite L0, L1, filter_filter_neg.
    split; reflexivity.
  - intros id' N. rewrite !GetBookByID_cases; simpl.
    rewrite C, L0, L1, (filter_filter_other _ _ _ N).
    now destruct (filter _ (sqlx.books (store.DB s))).
Qed.

Lemma GetBookByID_after_DeleteBook_witness :
  (exists e,
     store.GetBookByID context.Background 2
       (snd (store.DeleteBook context.Background 2 three_books_store)) =
     (None, Some e, snd (store.DeleteBook context.Background 2 three_books_store)) /\
     NotFoundError e = true) /\
  (forall id', id' <> 2 ->
     fst (store.GetBookByID context.Background id'
            (snd (store.DeleteBook context.Background 2 three_books_store))) =
     fst (store.GetBookByID context.Background id' three_books_store)).
Proof.
  refine (GetBookByID_after_DeleteBook context.Background context.Background 2
            three_books_store _ _ _).
  - vm_compute. reflexivity.
  - reflexivity.
Defined.

(** X6.  [GetBookByID] and [GetBooks] only read: whatever they return,
    the store is afterwards as it was, and so is the service's store
    after [GetBook] and [GetBooks]. *)
Theorem reads_leave_the_store (ctx : context.Context) (id : Z)
  (s : store.LibraryStore) :
  snd (store.GetBookByID ctx id s) = s /\
  snd (store.GetBooks ctx s) = s /\
  snd (fst (service.GetBook ctx {| service.GetBookRequest_ID := id |}
              {| service.Store := Some s |})) = {| service.Store := Some s |} /\
  snd (fst (service.GetBooks ctx service.Build_GetBooksRequest
              {| service.Store := Some s |})) = {| service.Store := Some s |}.
Proof.
  pose proof (GetBookByID_store ctx id s) as G1.
  pose proof (GetBooks_store ctx s) as G2.
  split; [exact G1 |]. split; [exact G2 |].
  unfold service.GetBook, service.GetBooks; simpl.
  destruct (store.GetBookByID ctx id s) as [[book [e |]] s1];
    destruct (store.GetBooks ctx s) as [[books [e' |]] s2];
    simpl in *; subst; now split.
Qed.

Lemma StronglySorted_map_book (l : list sqlx.BookRow) :
  StronglySorted (fun a b => sqlx.col_id a <= sqlx.col_id b) l ->
  StronglySorted (fun a b => library.ID a <= library.ID b) (map book_of_row l).
Proof.
  induction 1 as [| r l SS IH F]; simpl; constructor; [exact IH |].
  rewrite Forall_map. exact F.
Qed.

(** X7.  On a healthy connection, with a context that stays live while
    the rows are read, [GetBooks] returns every row of the table as a
    book, each once, in ascending order of id; for a table that keeps
    its invariant that is the order of insertion. *)
Theorem GetBooks_lists_every_row (ctx : context.Context) (s : store.LibraryStore) :
  sqlx.closed (store.DB s) = false ->
  live (List.length (sqlx.books (store.DB s))) ctx ->
  exists books,
    store.GetBooks ctx s = (Some books, None, s) /\
    Permutation (map book_of_row (sqlx.books (store.DB s))) books /\
    StronglySorted (fun a b => library.ID a <= library.ID b) books /\
    (wf (store.DB s) -> books = map book_of_row (sqlx.books (store.DB s))).
Proof.
  intros C L.
  exists (map book_of_row (sqlx.order_by_id (sqlx.books (store.DB s)))).
  split; [| split; [| split]].
  - rewrite GetBooks_cases, C, (live_0 _ _ L), delivered_live; [reflexivity |].
    now rewrite <- (Permutation_length (order_by_id_Permutation _)).
  - apply Permutation_map, order_by_id_Permutation.
  - apply StronglySorted_map_book, order_by_id_ascending.
  - intros (_ & SS & _). now rewrite (order_by_id_sorted _ SS).
Qed.

Lemma GetBooks_lists_every_row_witness :
  exists books,
    store.GetBooks context.Background three_books_store =
    (Some books, None, three_books_store) /\
    Permutation (map book_of_row (sqlx.books (store.DB three_books_store))) books /\
    StronglySorted (fun a b => library.ID a <= library.ID b) books /\
    (wf (store.DB three_books_store) ->
     books = map book_of_row (sqlx.books (store.DB three_books_store))).
Proof.
  refine (GetBooks_lists_every_row context.Background three_books_store _ _).
  - reflexivity.
  - reflexivity.
Defined.





Lemma books_id_seq_CreateBook (ctx : context.Context) (title author : string)
  (s : store.LibraryStore) :
  sqlx.books_id_seq (store.DB s) <=
  sqlx.books_id_seq (store.DB (snd (store.CreateBook ctx title author s))).
Proof.
  destruct s as [db]. unfold_store. simpl.
  destruct (sqlx.closed db); simpl; [lia |].
  destruct (context.Err ctx); simpl; [lia |].
  destruct (sqlx.max_int8 <? sqlx.books_id_seq db); simpl.
  { destruct (context.Err (context.tick ctx)); simpl; lia. }
  destruct (String.length author =? 0)%nat; simpl; [lia |].
  destruct (String.length title =? 0)%nat; simpl; [lia |].
  destruct (existsb _ (sqlx.books db)); simpl; [lia |].
  destruct (context.Err (context.tick ctx)); simpl; lia.
Qed.

Lemma books_id_seq_store_after (calls : list call) :
  forall s : store.LibraryStore,
    sqlx.books_id_seq (store.DB s) <=
    sqlx.books_id_seq (store.DB (fold_left store_after calls s)).
Proof.
  induction calls as [| c calls IH]; simpl; intros s; [lia |].
  eapply Z.le_trans; [| apply IH].
  destruct c as [ctx title author | ctx id | ctx id | ctx]; simpl.
  - apply books_id_seq_CreateBook.
  - rewrite DeleteBook_cases.
    destruct (sqlx.closed (store.DB s)); simpl; [lia |].
    destruct (context.Err ctx); simpl; lia.
  - rewrite GetBookByID_store. lia.
  - rewrite GetBooks_store. lia.
Qed.

(** X10.  Ids are never handed out twice: a book created later, after
    any calls in between (deletes too), has a greater id than a book
    created earlier. *)
Theorem CreateBook_ids_increase
  (ctx1 ctx2 : context.Context) (title1 author1 title2 author2 : string)
  (s s1 s2 : store.LibraryStore) (book1 book2 : library.Book)
  (calls : list call) :
  store.CreateBook ctx1 title1 author1 s = (Some book1, None, s1) ->
  store.CreateBook ctx2 title2 author2 (fold_left store_after calls s1) =
  (Some book2, None, s2) ->
  library.ID book1 < library.ID book2.
Proof.
  intros C1 C2.
  destruct (CreateBook_inv _ _ _ _ _ _ C1) as (B1 & D1 & _).
  destruct (CreateBook_inv _ _ _ _ _ _ C2) as (B2 & _).
  inversion B1; inversion B2; subst; simpl.
  pose proof (books_id_seq_store_after calls s1) as M.
  rewrite D1 in M at 1. simpl in M. lia.
Qed.

Lemma CreateBook_ids_increase_witness :
  library.ID {| library.ID := 1; library.Title := "Dune";
                library.Author := "Frank Herbert" |} <
  library.ID {| library.ID := 2; library.Title := "Emma";
                library.Author := "Jane Austen" |}.
Proof.
  refine (CreateBook_ids_increase context.Background context.Background
            "Dune" "Frank Herbert" "Emma" "Jane Austen" new_store
            (snd (store.CreateBook context.Background "Dune" "Frank Herbert" new_store))
            (snd (store.CreateBook context.Background "Emma" "Jane Austen"
                    (snd (store.DeleteBook context.Background 1
                            (snd (store.CreateBook context.Background
                                    "Dune" "Frank Herbert" new_store))))))
            _ _ [DeleteBookCall context.Background 1] _ _).
  - vm_compute. reflexivity.
  - vm_compute. reflexivity.
Defined.

(** X11.  On a closed handle, and with a context that is done, every
    method of the store fails with the handle's or the context's error
    wrapped, returns nothing else, and leaves the database as it is. *)
Theorem refused_calls_change_nothing
  (ctx : context.Context) (s : store.LibraryStore) (cause : error) :
  sqlx.conn ctx (store.DB s) = Some cause ->
  (cause = errors.errDBClosed \/ cause = errors.Canceled \/
   cause = errors.DeadlineExceeded) /\
  (forall title author,
     store.CreateBook ctx title author s =
     (None, Some (fmt.Errorf_w "create book: " cause), s)) /\
  (forall id,
     store.DeleteBook ctx id s = (Some (fmt.Errorf_w "delete book: " cause), s)) /\
  (forall id,
     store.GetBookByID ctx id s =
     (None, Some (fmt.Errorf_w "get book by id: " cause), s)) /\
  store.GetBooks ctx s = (None, Some (fmt.Errorf_w "get books: " cause), s).
Proof.
  intros E. destruct s as [db]. simpl in E.
  split.
  { unfold sqlx.conn in E. destruct (sqlx.closed db); [inversion E; now left |].
    destruct ctx as [| [| n] | [| n]]; simpl in E; inversion E; auto. }
  repeat split; intros; unfold_store; simpl; unfold sqlx.conn in E;
    destruct (sqlx.closed db); try (inversion E; subst; reflexivity);
    rewrite E; reflexivity.
Qed.

Lemma refused_calls_change_nothing_witness :
  (errors.Canceled = errors.errDBClosed \/ errors.Canceled = errors.Canceled \/
   errors.Canceled = errors.DeadlineExceeded) /\
  (forall title author,
     store.CreateBook (context.WithCancel 0) title author three_books_store =
     (None, Some (fmt.Errorf_w "create book: " errors.Canceled), three_books_store)) /\
  (forall id,
     store.DeleteBook (context.WithCancel 0) id three_books_store =
     (Some (fmt.Errorf_w "delete book: " errors.Canceled), three_books_store)) /\
  (forall id,
     store.GetBookByID (context.WithCancel 0) id three_books_store =
     (None, Some (fmt.Errorf_w "get book by id: " errors.Canceled), three_books_store)) /\
  store.GetBooks (context.WithCancel 0) three_books_store =
  (None, Some (fmt.Errorf_w "get books: " errors.Canceled), three_books_store).
Proof.
  refine (refused_calls_change_nothing (context.WithCancel 0) three_books_store
            errors.Canceled _).
  reflexivity.
Defined.


Lemma CreateBook_pointer_agrees_witness :
  fst (store.CreateBook context.Background "Dune" "Frank Herbert" new_store) =
  (Some (snd (fst (store_begin.CreateBook context.Background
                     {| library.ID := 0; library.Title := "Dune";
                        library.Author := "Frank Herbert" |} new_store))), None).
Proof.
  pose proof (CreateBook_pointer_agrees context.Background
                {| library.ID := 0; library.Title := "Dune";
                   library.Author := "Frank Herbert" |} new_store) as P.
  cbv zeta in P. destruct P as (_ & _ & P & _).
  simpl library.Title in P. simpl library.Author in P.
  rewrite (surjective_pairing (fst (store.CreateBook _ _ _ new_store))).
  rewrite (P eq_refl). reflexivity.
Defined.

(** ** The service *)

(** X12.  The two checks of the testing lesson change nothing for a
    request with a title and an author: over any store, [AddBook] with
    the checks does what [AddBook] of the first-model lesson does. *)
Theorem AddBook_checks_keep_valid_requests
  {S : Type} `{service.LibraryStore S}
  (ctx : context.Context) (req : service.AddBookRequest)
  (ls : service.LibraryService S) :
  service.AddBookRequest_Title req <> "" ->
  service.AddBookRequest_Author req <> "" ->
  service.AddBook ctx req ls = service_first_model.AddBook ctx req ls.
Proof.
  intros Et Ea. unfold service.AddBook, service_first_model.AddBook.
  destruct (String.eqb_spec (service.AddBookRequest_Title req) ""); [contradiction |].
  destruct (String.eqb_spec (service.AddBookRequest_Author req) ""); [contradiction |].
  reflexivity.
Qed.

Lemma AddBook_checks_keep_valid_requests_witness :
  service.AddBook context.Background dune_request
    {| service.Store := Some service_test.test_store |} =
  service_first_model.AddBook context.Background dune_request
    {| service.Store := Some service_test.test_store |}.
Proof.
  refine (AddBook_checks_keep_valid_requests context.Background dune_request
            {| service.Store := Some service_test.test_store |} _ _).
  - apply String.eqb_neq. reflexivity.
  - apply String.eqb_neq. reflexivity.
Defined.

(** X13.  Over any store, [AddBook] writes one log line, naming the id
    and the title of the book it returns, exactly when it returns a
    book; a call that returns an error or panics logs nothing, and
    [GetBook] and [GetBooks] never log. *)
Theorem service_log_lines
  {S : Type} `{service.LibraryStore S}
  (ctx : context.Context) (ls : service.LibraryService S) :
  (forall req,
     match service.AddBook ctx req ls with
     | (Returns (Some resp, None), _, lg) =>
         exists book,
           service.AddBookResponse_Book resp = Some book /\
           lg = [("added book " ++ fmt.d (library.ID book) ++ ": " ++
                  library.Title book ++ service.newline)%string]
     | (_, _, lg) => lg = []
     end) /\
  (forall req, snd (service.GetBook ctx req ls) = []) /\
  (forall req, snd (service.GetBooks ctx req ls) = []).
Proof.
  split; [| split].
  - intros req. unfold service.AddBook.
    destruct (String.eqb _ ""); [reflexivity |].
    destruct (String.eqb _ ""); [reflexivity |].
    destruct (service.Store ls) as [st |]; [| reflexivity].
    destruct (service.LibraryStore_CreateBook _ _ _ st) as [[[book |] [e |]] st'];
      try reflexivity.
    now exists book.
  - intros req. unfold service.GetBook.
    destruct (service.Store ls) as [st |]; [| reflexivity].
    now destruct (service.LibraryStore_GetBookByID _ _ st) as [[[book |] [e |]] st'].
  - intros req. unfold service.GetBooks.
    destruct (service.Store ls) as [st |]; [| reflexivity].
    now destruct (service.LibraryStore_GetBooks _ st) as [[[books |] [e |]] st'].
Qed.

(** X14.  Over any store, a method of the service that returns an error
    returns a nil response with it.  The error of [AddBook] is one of
    its two validation errors, made without a call of the store, or the
    error of the store's [CreateBook] wrapped under [add book]; the
    errors of [GetBook] and [GetBooks] are the store's errors wrapped
    under [get book] and [get books]. *)
Theorem service_errors
  {S : Type} `{service.LibraryStore S}
  (ctx : context.Context) (st : S) (e : error) :
  (forall req resp ls' lg,
     service.AddBook ctx req {| service.Store := Some st |} =
     (Returns (resp, Some e), ls', lg) ->
     resp = None /\
     ((ValidationError e = true /\ ls' = {| service.Store := Some st |}) \/
      exists cause,
        snd (fst (service.LibraryStore_CreateBook ctx
                    (service.AddBookRequest_Title req)
                    (service.AddBookRequest_Author req) st)) = Some cause /\
        e = fmt.Errorf_w "add book: " cause)) /\
  (forall req resp ls' lg,
     service.GetBook ctx req {| service.Store := Some st |} =
     (Returns (resp, Some e), ls', lg) ->
     resp = None /\
     exists cause,
       snd (fst (service.LibraryStore_GetBookByID ctx
                   (service.GetBookRequest_ID req) st)) = Some cause /\
       e = fmt.Errorf_w "get book: " cause) /\
  (forall req resp ls' lg,
     service.GetBooks ctx req {| service.Store := Some st |} =
     (Returns (resp, Some e), ls', lg) ->
     resp = None /\
     exists cause,
       snd (fst (service.LibraryStore_GetBooks ctx st)) = Some cause /\
       e = fmt.Errorf_w "get books: " cause).
Proof.
  split; [| split].
  - intros req resp ls' lg. unfold service.AddBook.
    destruct (String.eqb _ "");
      [intros E; inversion E; subst; split; [reflexivity | now left] |].
    destruct (String.eqb _ "");
      [intros E; inversion E; subst; split; [reflexivity | now left] |].
    simpl.
    destruct (service.LibraryStore_CreateBook _ _ _ st) as [[[book |] [cause |]] st'];
      intros E; inversion E; subst; (split; [reflexivity |]); right; now exists cause.
  - intros req resp ls' lg. unfold service.GetBook. simpl.
    destruct (service.LibraryStore_GetBookByID _ _ st) as [[[book |] [cause |]] st'];
      intros E; inversion E; subst; (split; [reflexivity |]); now exists cause.
  - intros req resp ls' lg. unfold service.GetBooks. simpl.
    destruct (service.LibraryStore_GetBooks _ st) as [[[books |] [cause |]] st'];
      intros E; inversion E; subst; (split; [reflexivity |]); now exists cause.
Qed.

Lemma service_errors_witness :
  (None : option service.GetBookResponse) = None /\
  exists cause,
    snd (fst (service.LibraryStore_GetBookByID context.Background 42 new_store)) =
    Some cause /\
    fmt.Errorf_w "get book: " (fmt.Errorf_w "get book by id: " errors.ErrNoRows) =
    fmt.Errorf_w "get book: " cause.
Proof.
  refine (proj1 (proj2 (service_errors context.Background new_store
                          (fmt.Errorf_w "get book: "
                             (fmt.Errorf_w "get book by id: " errors.ErrNoRows))))
            {| service.GetBookRequest_ID := 42 |} None
            {| service.Store := Some new_store |} [] _).
  vm_compute. reflexivity.
Defined.

(** X15.  With a behaviour function set, [AddBook] for a request with a
    title and an author calls the mock's [CreateBook] once, with the
    context it was given and the request's title and author: the call
    log gets exactly that entry at its end.  What the function returns
    comes back: its book in the response, or its error wrapped. *)
Theorem AddBook_calls_the_mock_once
  (ctx : context.Context) (req : service.AddBookRequest)
  (ms : service_test.mockStore)
  (fn : context.Context -> string -> string -> option library.Book * option error) :
  service.AddBookRequest_Title req <> "" ->
  service.AddBookRequest_Author req <> "" ->
  service_test.CreateBookFn ms = Some fn ->
  exists out lg,
    service.AddBook ctx req {| service.Store := Some ms |} =
    (out,
     {| service.Store :=
          Some {| service_test.CreateBookCalledWith :=
                    Some (elems (service_test.CreateBookCalledWith ms) ++
                          [{| service_test.Ctx := ctx;
                              service_test.Title := service.AddBookRequest_Title req;
                              service_test.Author := service.AddBookRequest_Author req |}]);
                  service_test.CreateBookFn := Some fn |} |}, lg) /\
    match fn ctx (service.AddBookRequest_Title req) (service.AddBookRequest_Author req) with
    | (_, Some err) => out = Returns (None, Some (fmt.Errorf_w "add book: " err))
    | (Some book, None) =>
        out = Returns (Some {| service.AddBookResponse_Book := Some book |}, None)
    | (None, None) => out = Panics service.nil_dereference
    end.
Proof.
  intros Et Ea F. rewrite AddBook_delegates by assumption. simpl.
  unfold service_test.CreateBook. rewrite F. unfold append.
  destruct (fn ctx _ _) as [[book |] [err |]]; do 2 eexists; split; reflexivity.
Qed.

Lemma AddBook_calls_the_mock_once_witness :
  exists out lg,
    service.AddBook context.Background dune_request
      {| service.Store := Some service_test.test_store |} =
    (out,
     {| service.Store :=
          Some {| service_test.CreateBookCalledWith :=
                    Some (elems (service_test.CreateBookCalledWith service_test.test_store) ++
                          [{| service_test.Ctx := context.Background;
                              service_test.Title := service.AddBookRequest_Title dune_request;
                              service_test.Author := service.AddBookRequest_Author dune_request |}]);
                  service_test.CreateBookFn :=
                    service_test.CreateBookFn service_test.test_store |} |}, lg) /\
    out = Returns (Some {| service.AddBookResponse_Book :=
                             Some {| library.ID := 123; library.Title := "Dune";
                                     library.Author := "Frank Herbert" |} |}, None).
Proof.
  refine (AddBook_calls_the_mock_once context.Background dune_request
            service_test.test_store _ _ _ _).
  - apply String.eqb_neq. reflexivity.
  - apply String.eqb_neq. reflexivity.
  - reflexivity.
Defined.

(** ** The tests of the store *)

Lemma runCleanup_Cleanup {W : Type} (t : testing.T W) (c : testing.cleanup W) (w : W) :
  testing.runCleanup (testing.Cleanup t c) w =
  match c w with
  | (lines, w') =>
      testing.runCleanup
        {| testing.failed := testing.failed t;
           testing.output := testing.output t ++ lines;
           testing.cleanups := testing.cleanups t |} w'
  end.
Proof.
  unfold testing.runCleanup, testing.Cleanup. simpl.
  rewrite rev_app_distr. simpl. now destruct (c w).
Qed.

Lemma runCleanup_snoc {W : Type} (fl : bool) (out : list testing.entry)
  (cs : list (testing.cleanup W)) (c : testing.cleanup W) (w : W) :
  testing.runCleanup
    {| testing.failed := fl; testing.output := out; testing.cleanups := cs ++ [c] |} w =
  match c w with
  | (lines, w') =>
      testing.runCleanup
        {| testing.failed := fl; testing.output := out ++ lines;
           testing.cleanups := cs |} w'
  end.
Proof.
  apply (runCleanup_Cleanup
           {| testing.failed := fl; testing.output := out; testing.cleanups := cs |}).
Qed.

Lemma runCleanup_failed {W : Type} (t : testing.T W) (w : W) :
  testing.failed (fst (testing.runCleanup t w)) = testing.failed t /\
  testing.cleanups (fst (testing.runCleanup t w)) = [].
Proof.
  destruct t as [fl out cs]. revert out w.
  induction cs as [| c cs IH] using rev_ind; intros out w; [now split |].
  rewrite runCleanup_snoc. destruct (c w) as [lines w']. apply IH.
Qed.

(** X16.  A cleanup registered with [MustCleanup] runs before the ones
    registered earlier, on the world as the test left it.  If it returns
    an error the error is logged and nothing more: the cleanups
    registered earlier still run, and no cleanup makes the test fail. *)
Theorem MustCleanup_runs_last_first
  {W : Type} (t : testing.T W) (f : W -> option error * W) (w : W) :
  testing.runCleanup (test.MustCleanup t f) w =
  match f w with
  | (Some err, w') =>
      testing.runCleanup
        (testing.Log t [testing.Str "failed to clean up after test:"; testing.Error err])
        w'
  | (None, w') => testing.runCleanup t w'
  end /\
  testing.failed (fst (testing.runCleanup (test.MustCleanup t f) w)) =
  testing.failed t.
Proof.
  split; [| apply (runCleanup_failed (test.MustCleanup t f) w)].
  unfold test.MustCleanup. rewrite runCleanup_Cleanup.
  destruct (f w) as [[err |] w']; [reflexivity |].
  rewrite app_nil_r. now destruct t.
Qed.

Lemma filter_negb_existsb_nil (l : list sqlx.BookRow) :
  filter (fun r => negb (existsb (Z.eqb (sqlx.col_id r)) [])) l = l.
Proof.
  induction l as [| x l IH]; [reflexivity |].
  change (x :: filter (fun r => negb (existsb (Z.eqb (sqlx.col_id r)) [])) l = x :: l).
  f_equal. exact IH.
Qed.

Lemma filter_negb_existsb_snoc (ids : list Z) (id : Z) (l : list sqlx.BookRow) :
  filter (fun r => negb (existsb (Z.eqb (sqlx.col_id r)) ids))
    (filter (fun r => negb (sqlx.col_id r =? id)) l) =
  filter (fun r => negb (existsb (Z.eqb (sqlx.col_id r)) (ids ++ [id]))) l.
Proof.
  induction l as [| x l IH]; simpl; [reflexivity |].
  rewrite existsb_app. simpl. rewrite orb_false_r.
  destruct (sqlx.col_id x =? id); simpl.
  - rewrite orb_true_r. exact IH.
  - rewrite orb_false_r. destruct (existsb _ ids); simpl; [| f_equal]; exact IH.
Qed.

Lemma delete_cleanup_ok (ctx : context.Context) (id : Z) (ls : store.LibraryStore) :
  context.Err ctx = None ->
  sqlx.closed (store.DB ls) = false ->
  delete_cleanup ctx id ls =
  ([], with_rows (filter (fun r => negb (sqlx.col_id r =? id))
                    (sqlx.books (store.DB ls))) 0 ls).
Proof.
  intros L C. unfold delete_cleanup, with_rows.
  rewrite DeleteBook_cases, C, L, Z.add_0_r. reflexivity.
Qed.

(** The cleanups of [DeleteBook]s of the ids [ids], on an open handle
    with a live context, remove the rows with these ids and log nothing. *)
Lemma runCleanup_delete_cleanups (ctx : context.Context) (fl : bool)
  (out : list testing.entry) (ids : list Z) :
  context.Err ctx = None ->
  forall ls : store.LibraryStore,
    sqlx.closed (store.DB ls) = false ->
    testing.runCleanup
      {| testing.failed := fl; testing.output := out;
         testing.cleanups := map (delete_cleanup ctx) ids |} ls =
    ({| testing.failed := fl; testing.output := out; testing.cleanups := [] |},
     with_rows
       (filter (fun r => negb (existsb (Z.eqb (sqlx.col_id r)) ids))
          (sqlx.books (store.DB ls))) 0 ls).
Proof.
  intros L. induction ids as [| id ids IH] using rev_ind; intros ls C.
  - rewrite filter_negb_existsb_nil. unfold testing.runCleanup, with_rows. simpl.
    rewrite Z.add_0_r.
    destruct ls as [[? ? ? ?]]; simpl in *; now subst.
  - rewrite map_app. simpl. rewrite runCleanup_snoc.
    rewrite (delete_cleanup_ok ctx id ls L C).
    rewrite app_nil_r, IH by reflexivity.
    unfold with_rows; simpl. rewrite filter_negb_existsb_snoc.
    now rewrite !Z.add_0_r.
Qed.

Ltac split_ands := repeat match goal with |- _ /\ _ => split end.

(** What [CreateBook] does under a context that stays live for its
    round trip: it stores the row and returns the book, or it returns an
    error and the rows are as before. *)
Lemma CreateBook_live (ctx : context.Context) (title author : string)
  (s : store.LibraryStore) :
  live 1 ctx ->
  match store.CreateBook ctx title author s with
  | (Some b, None, s') =>
      b = {| library.ID := sqlx.books_id_seq (store.DB s);
             library.Title := title; library.Author := author |} /\
      s' = with_rows (sqlx.books (store.DB s) ++ [inserted_row title author (store.DB s)])
             1 s /\
      sqlx.closed (store.DB s) = false
  | (None, Some e, s') =>
      sqlx.books (store.DB s') = sqlx.books (store.DB s) /\
      sqlx.closed (store.DB s') = sqlx.closed (store.DB s) /\
      sqlx.now (store.DB s') = sqlx.now (store.DB s) /\
      sqlx.books_id_seq (store.DB s) <= sqlx.books_id_seq (store.DB s')
  | _ => False
  end.
Proof.
  intros L. pose proof (live_0 _ _ L) as L0. apply live_S in L as [_ L1].
  apply live_0 in L1.
  destruct s as [db]. unfold_store. unfold with_rows. simpl.
  destruct (sqlx.closed db) eqn:C; simpl; [rewrite C; repeat split; lia |].
  rewrite L0. simpl.
  destruct (sqlx.max_int8 <? sqlx.books_id_seq db); simpl.
  { rewrite ?C. repeat split; lia. }
  destruct (String.length author =? 0)%nat; simpl; [repeat split; lia |].
  destruct (String.length title =? 0)%nat; simpl; [repeat split; lia |].
  destruct (existsb _ (sqlx.books db)); simpl; [repeat split; lia |].
  rewrite L1. simpl. now repeat split.
Qed.

Lemma wf_with_rows (rows : list sqlx.BookRow) (k : Z) (ls : store.LibraryStore) :
  wf (store.DB ls) -> 0 <= k -> rows = sqlx.books (store.DB ls) ->
  wf (store.DB (with_rows rows k ls)).
Proof.
  intros (Hseq & SS & Hids & Hchk) K ->. unfold wf, with_rows; simpl.
  split; [lia |]. split; [exact SS |]. split; [| exact Hchk].
  eapply Forall_impl; [| exact Hids]. simpl; intros; lia.
Qed.

(** What the loop of [createManyBooks] leaves behind: a cleanup for each
    row it stored, and nothing in the log. *)
Lemma createManyBooks_loop_cleanups (ctx : context.Context)
  (params : list (string * string)) :
  live 1 ctx ->
  forall (t : store_test.T) (ls : store.LibraryStore) (ids0 : list Z),
    wf (store.DB ls) ->
    match store_test.createManyBooks_loop ctx t ls (map entry_of params)
            (Some ids0) with
    | (res, t', ls', panicked) =>
        panicked = None /\
        exists rows,
          t' = {| testing.failed := testing.failed t;
                  testing.output := testing.output t;
                  testing.cleanups :=
                    testing.cleanups t ++
                    map (delete_cleanup ctx) (map sqlx.col_id rows) |} /\
          sqlx.books (store.DB ls') = sqlx.books (store.DB ls) ++ rows /\
          Forall (fun r => sqlx.books_id_seq (store.DB ls) <= sqlx.col_id r) rows /\
          sqlx.closed (store.DB ls') = sqlx.closed (store.DB ls) /\
          sqlx.now (store.DB ls') = sqlx.now (store.DB ls) /\
          sqlx.books_id_seq (store.DB ls) <= sqlx.books_id_seq (store.DB ls') /\
          wf (store.DB ls') /\
          match res with
          | (Some ids, None) =>
              ids = ids0 ++ map sqlx.col_id rows /\
              map (fun r => (sqlx.col_title r, sqlx.col_author r)) rows = params /\
              sqlx.books_id_seq (store.DB ls') =
              sqlx.books_id_seq (store.DB ls) + Z.of_nat (List.length params) /\
              map sqlx.col_id rows =
              map (fun i => sqlx.books_id_seq (store.DB ls) + Z.of_nat i)
                (seq 0 (List.length params))
          | (None, Some _) => True
          | _ => False
          end
    end.
Proof.
  intros L. induction params as [| [title author] rest IH]; intros t ls ids0 W;
    cbn [map entry_of fst snd store_test.createManyBooks_loop nth_error].
  - split; [reflexivity |]. exists []. simpl. rewrite !app_nil_r.
    split_ands; trivial; try lia. now destruct t.
  - pose proof (CreateBook_live ctx title author ls L) as C.
    pose proof (CreateBook_wf ctx title author ls W) as W1.
    destruct (store.CreateBook ctx title author ls) as [[[b |] [e |]] ls1];
      try contradiction; simpl in W1.
    + destruct C as (-> & -> & Cl). simpl.
      specialize (IH (test.MustCleanup t
                        (fun ls0 => store.DeleteBook ctx (sqlx.books_id_seq (store.DB ls)) ls0))
                    (with_rows (sqlx.books (store.DB ls) ++
                                [inserted_row title author (store.DB ls)]) 1 ls)
                    (ids0 ++ [sqlx.books_id_seq (store.DB ls)]) W1).
      unfold append; simpl.
      destruct (store_test.createManyBooks_loop ctx _ _ (map entry_of rest) _)
        as [[[res t'] ls'] panicked].
      destruct IH as (-> & rows & -> & Bk & Fr & Cl' & Nw & Sq & W' & R).
      split; [reflexivity |].
      exists (inserted_row title author (store.DB ls) :: rows).
      simpl in *. rewrite <- !app_assoc in *. simpl in *.
      split; [reflexivity |]. split; [exact Bk |].
      split; [constructor; [simpl; lia |];
              eapply Forall_impl; [| exact Fr]; simpl; intros; lia |].
      split; [now rewrite Cl', Cl |]. split; [exact Nw |]. split; [lia |].
      split; [exact W' |].
      destruct res as [[ids |] [e |]]; trivial.
      destruct R as (-> & P & Sq' & Ids).
      split; [reflexivity |]. split; [now rewrite P |]. split; [lia |].
      f_equal; [lia |]. rewrite Ids, <- seq_shift, map_map.
      apply map_ext. intros i. lia.
    + destruct C as (Bk & Cl & Nw & Sq). split; [reflexivity |].
      exists []. simpl. rewrite !app_nil_r.
      split_ands; trivial. now destruct t.
Qed.

Lemma filter_new_rows (old rows : list sqlx.BookRow) (next : Z) :
  Forall (fun r => sqlx.col_id r < next) old ->
  Forall (fun r => next <= sqlx.col_id r) rows ->
  filter (fun r => negb (existsb (Z.eqb (sqlx.col_id r)) (map sqlx.col_id rows)))
    (old ++ rows) = old.
Proof.
  intros Fo Fr. rewrite filter_app.
  assert (E1 : filter (fun r => negb (existsb (Z.eqb (sqlx.col_id r))
                                        (map sqlx.col_id rows))) old = old).
  { rewrite Forall_forall in Fo, Fr.
    induction old as [| x old IH]; [reflexivity |]. simpl.
    assert (X : existsb (Z.eqb (sqlx.col_id x)) (map sqlx.col_id rows) = false).
    { apply not_true_is_false. intros E. apply existsb_exists in E as (i & Hi & E).
      apply in_map_iff in Hi as (r & <- & Hr). apply Z.eqb_eq in E.
      specialize (Fo x (or_introl eq_refl)). specialize (Fr r Hr). lia. }
    rewrite X. simpl. f_equal. apply IH. intros r Hr. apply Fo. now right. }
  assert (E2 : filter (fun r => negb (existsb (Z.eqb (sqlx.col_id r))
                                        (map sqlx.col_id rows))) rows = []).
  { clear. assert (G : forall l, incl l rows ->
      filter (fun r => negb (existsb (Z.eqb (sqlx.col_id r)) (map sqlx.col_id rows))) l = []).
    { induction l as [| x l IH]; intros I; [reflexivity |]. simpl.
      assert (X : existsb (Z.eqb (sqlx.col_id x)) (map sqlx.col_id rows) = true).
      { apply existsb_exists. exists (sqlx.col_id x). split; [| apply Z.eqb_refl].
        apply in_map, I. now left. }
      rewrite X. simpl. apply IH. intros r Hr. apply I. now right. }
    apply G, incl_refl. }
  rewrite E1, E2. apply app_nil_r.
Qed.




Lemma with_rows_with_rows (rows rows' : list sqlx.BookRow) (j k : Z)
  (ls : store.LibraryStore) :
  with_rows rows k (with_rows rows' j ls) = with_rows rows (j + k) ls.
Proof. unfold with_rows; simpl. now rewrite Z.add_assoc. Qed.

Lemma CreateBook_Background (title author : string) (ls : store.LibraryStore) :
  wf (store.DB ls) -> sqlx.closed (store.DB ls) = false ->
  sqlx.books_id_seq (store.DB ls) <= sqlx.max_int8 ->
  title <> "" -> author <> "" ->
  store.CreateBook context.Background title author ls =
  (Some {| library.ID := sqlx.books_id_seq (store.DB ls);
           library.Title := title; library.Author := author |},
   None,
   with_rows (sqlx.books (store.DB ls) ++ [inserted_row title author (store.DB ls)])
     1 ls) /\
  wf (store.DB (with_rows (sqlx.books (store.DB ls) ++
                           [inserted_row title author (store.DB ls)]) 1 ls)).
Proof.
  intros W C M Et Ea.
  pose proof (CreateBook_ok context.Background title author ls W C
                (live_Background 1) M Et Ea) as E.
  split; [exact E |].
  pose proof (CreateBook_wf context.Background title author ls W) as W1.
  now rewrite E in W1.
Qed.

(** The cleanup of the one book a test created puts the rows back. *)
Lemma cleanup_created (fl : bool) (out : list testing.entry)
  (title author : string) (ls : store.LibraryStore) :
  wf (store.DB ls) ->
  testing.runCleanup
    {| testing.failed := fl; testing.output := out;
       testing.cleanups :=
         [delete_cleanup context.Background (sqlx.books_id_seq (store.DB ls))] |}
    (with_rows (sqlx.books (store.DB ls) ++ [inserted_row title author (store.DB ls)])
       1 ls) =
  ({| testing.failed := fl; testing.output := out; testing.cleanups := [] |},
   with_rows (sqlx.books (store.DB ls)) 1 ls).
Proof.
  intros W.
  rewrite (runCleanup_delete_cleanups context.Background fl out
             [sqlx.books_id_seq (store.DB ls)] eq_refl) by reflexivity.
  rewrite with_rows_with_rows. f_equal. unfold with_rows. simpl. f_equal. f_equal.
  destruct W as (_ & _ & Hids & _).
  apply (filter_new_rows (sqlx.books (store.DB ls))
           [inserted_row title author (store.DB ls)] (sqlx.books_id_seq (store.DB ls))).
  - eapply Forall_impl; [| exact Hids]. simpl; intros; lia.
  - repeat constructor. simpl. lia.
Qed.

Lemma MustCleanup_DeleteBook (t : store_test.T) (ctx : context.Context) (id : Z) :
  test.MustCleanup t (fun ls => store.DeleteBook ctx id ls) =
  testing.Cleanup t (delete_cleanup ctx id).
Proof. reflexivity. Qed.

Lemma tRunner_one_book_tests (ls : store.LibraryStore) :
  wf (store.DB ls) ->
  sqlx.closed (store.DB ls) = false ->
  sqlx.books_id_seq (store.DB ls) <= sqlx.max_int8 ->
  testing.tRunner store_test.TestLibraryStore_CreateBook ls =
  (passed, with_rows (sqlx.books (store.DB ls)) 1 ls, None) /\
  testing.tRunner store_test.TestLibraryStore_DeleteBook ls =
  (passed, with_rows (sqlx.books (store.DB ls)) 1 ls, None) /\
  testing.tRunner store_test.TestLibraryStore_GetBookByID ls =
  (passed, with_rows (sqlx.books (store.DB ls)) 1 ls, None).
Proof.
  intros W C M.
  assert (Et : "The Lean Startup" <> "") by discriminate.
  assert (Ea : "Eric Ries" <> "") by discriminate.
  destruct (CreateBook_Background _ _ ls W C M Et Ea) as [E W1].
  assert (Z0 : (sqlx.books_id_seq (store.DB ls) =? 0) = false)
    by (apply Z.eqb_neq; destruct W; lia).
  pose proof (cleanup_created false [] "The Lean Startup" "Eric Ries" ls W) as CL.
  assert (B1 : store_test.TestLibraryStore_CreateBook testing.new ls =
               ({| testing.failed := false; testing.output := [];
                   testing.cleanups :=
                     [delete_cleanup context.Background
                        (sqlx.books_id_seq (store.DB ls))] |},
                with_rows (sqlx.books (store.DB ls) ++
                           [inserted_row "The Lean Startup" "Eric Ries" (store.DB ls)])
                  1 ls, None)).
  { unfold store_test.TestLibraryStore_CreateBook. rewrite E. simpl. now rewrite Z0. }
  assert (B3 : store_test.TestLibraryStore_GetBookByID testing.new ls =
               ({| testing.failed := false; testing.output := [];
                   testing.cleanups :=
                     [delete_cleanup context.Background
                        (sqlx.books_id_seq (store.DB ls))] |},
                with_rows (sqlx.books (store.DB ls) ++
                           [inserted_row "The Lean Startup" "Eric Ries" (store.DB ls)])
                  1 ls, None)).
  { unfold store_test.TestLibraryStore_GetBookByID. rewrite E. simpl library.ID.
    rewrite GetBookByID_cases. unfold with_rows at 1 2 3. simpl.
    rewrite filter_app, (filter_fresh _ W). simpl. now rewrite !Z.eqb_refl. }
  split; [| split].
  - unfold testing.tRunner. now rewrite B1, CL.
  - unfold testing.tRunner, store_test.TestLibraryStore_DeleteBook.
    rewrite E. simpl library.ID.
    rewrite DeleteBook_cases. simpl.
    unfold testing.runCleanup, testing.new, passed. simpl.
    f_equal. f_equal. unfold with_rows. f_equal. f_equal.
    rewrite filter_app, (filter_not_fresh _ W). simpl.
    rewrite Z.eqb_refl. apply app_nil_r.
  - unfold testing.tRunner. now rewrite B3, CL.
Qed.

(** X18.  On an open handle to a table that keeps its invariant, with a
    value left in the sequence, each of the tests that create one book
    ([TestLibraryStore_CreateBook], [TestLibraryStore_DeleteBook],
    [TestLibraryStore_GetBookByID]) passes, logs nothing and does not
    panic; once its cleanups ran the rows of the table are those of
    before the test, whatever they were. *)
Theorem one_book_tests_pass (ls : store.LibraryStore) :
  wf (store.DB ls) ->
  sqlx.closed (store.DB ls) = false ->
  sqlx.books_id_seq (store.DB ls) <= sqlx.max_int8 ->
  testing.tRunner store_test.TestLibraryStore_CreateBook ls =
  (passed, with_rows (sqlx.books (store.DB ls)) 1 ls, None) /\
  testing.tRunner store_test.TestLibraryStore_DeleteBook ls =
  (passed, with_rows (sqlx.books (store.DB ls)) 1 ls, None) /\
  testing.tRunner store_test.TestLibraryStore_GetBookByID ls =
  (passed, with_rows (sqlx.books (store.DB ls)) 1 ls, None).
Proof. exact (tRunner_one_book_tests ls). Qed.

Lemma one_book_tests_pass_witness :
  testing.tRunner store_test.TestLibraryStore_CreateBook three_books_store =
  (passed, with_rows (sqlx.books (store.DB three_books_store)) 1 three_books_store, None) /\
  testing.tRunner store_test.TestLibraryStore_DeleteBook three_books_store =
  (passed, with_rows (sqlx.books (store.DB three_books_store)) 1 three_books_store, None) /\
  testing.tRunner store_test.TestLibraryStore_GetBookByID three_books_store =
  (passed, with_rows (sqlx.books (store.DB three_books_store)) 1 three_books_store, None).
Proof.
  refine (one_book_tests_pass three_books_store _ _ _).
  - exact (store_after_wf
             [CreateBookCall context.Background "Norse Mythology" "Neil Gaiman";
              CreateBookCall context.Background "The Divine Comedy" "Dante Alighieri";
              CreateBookCall context.Background "2001: A Space Odyssey" "Arthur C. Clarke"]
             new_store (wf_migrated 0)).
  - reflexivity.
  - vm_compute. intros E; inversion E.
Defined.

Lemma createManyBooks_loop_succeeds (params : list (string * string)) :
  Forall (fun p => fst p <> "" /\ snd p <> "") params ->
  forall (t : store_test.T) (ls : store.LibraryStore) (ids0 : list Z),
    wf (store.DB ls) -> sqlx.closed (store.DB ls) = false ->
    sqlx.books_id_seq (store.DB ls) + Z.of_nat (List.length params) - 1 <=
    sqlx.max_int8 ->
    exists ids,
      fst (fst (fst (store_test.createManyBooks_loop context.Background t ls
                       (map entry_of params) (Some ids0)))) = (Some ids, None).
Proof.
  induction 1 as [| [title author] rest [Et Ea] _ IH]; intros t ls ids0 W C M.
  - now exists ids0.
  - simpl in Et, Ea.
    cbn [map entry_of fst snd nth_error store_test.createManyBooks_loop].
    destruct (CreateBook_Background title author ls W C) as [E W1];
      [simpl List.length in M; lia | assumption | assumption |].
    rewrite E. apply IH; [exact W1 | reflexivity |].
    unfold with_rows; simpl. simpl List.length in M. lia.
Qed.

Lemma GetBooks_Background (ls : store.LibraryStore) :
  wf (store.DB ls) -> sqlx.closed (store.DB ls) = false ->
  store.GetBooks context.Background ls =
  (Some (map book_of_row (sqlx.books (store.DB ls))), None, ls).
Proof.
  intros W C. rewrite GetBooks_cases, C. simpl context.Err. cbv iota.
  destruct W as (_ & SS & _).
  rewrite (order_by_id_sorted _ SS), delivered_live by apply live_Background.
  reflexivity.
Qed.

Lemma skipn_cons_nth_error {A : Type} (l : list A) (i : nat) (x : A) (rest : list A) :
  skipn i l = x :: rest -> nth_error l i = Some x /\ skipn (S i) l = rest.
Proof.
  revert l; induction i as [| i IH]; intros [| y l]; simpl; try discriminate.
  - intros E; inversion E; now split.
  - intros E. destruct (IH l E) as [N R]. split; [exact N |].
    destruct l; exact R.
Qed.

(** The comparisons of [TestLibraryStore_GetBooks] find nothing to
    report when the books are the ones of [ids] and [params] from the
    index on. *)
Lemma compare_books_equal (rows : list sqlx.BookRow) :
  forall (t : store_test.T) (idx : nat) (ids : list Z)
         (params : list (string * string)),
    skipn idx ids = map sqlx.col_id rows ->
    skipn idx params = map (fun r => (sqlx.col_title r, sqlx.col_author r)) rows ->
    store_test.compare_books t idx (map book_of_row rows) (Some ids)
      (map entry_of params) =
    (t, None).
Proof.
  induction rows as [| r rows IH]; intros t idx ids params Ei Ep; [reflexivity |].
  simpl in Ei, Ep.
  destruct (skipn_cons_nth_error _ _ _ _ Ei) as [Ni Ri].
  destruct (skipn_cons_nth_error _ _ _ _ Ep) as [Np Rp].
  cbn [map store_test.compare_books elems].
  rewrite Ni, nth_error_map, Np. simpl. rewrite Z.eqb_refl, !String.eqb_refl. simpl.
  now apply IH.
Qed.

Lemma compare_books_keeps (books : list library.Book) :
  forall (t : store_test.T) (idx : nat) (ids : slice Z)
         (params : list (list string)),
    testing.cleanups (fst (store_test.compare_books t idx books ids params)) =
    testing.cleanups t /\
    (testing.failed t = true ->
     testing.failed (fst (store_test.compare_books t idx books ids params)) = true).
Proof.
  induction books as [| b books IH]; intros t idx ids params; simpl; [now split |].
  destruct (nth_error (elems ids) idx) as [id |]; [| now split].
  destruct (nth_error params idx) as [p |]; [| now split].
  destruct p as [| title [| author p]]; [now split | now split |].
  match goal with |- context [store_test.compare_books ?t' _ _ _ _] =>
    destruct (IH t' (S idx) ids params) as [K F];
    assert (Kt : testing.cleanups t' = testing.cleanups t /\
                 (testing.failed t = true -> testing.failed t' = true))
  end.
  { destruct (negb (library.ID b =? id)), (negb (String.eqb (library.Title b) title)),
      (negb (String.eqb (library.Author b) author)); simpl; now split. }
  destruct Kt as [Kc Kf]. split; [now rewrite K | auto].
Qed.

(** With more books than ids, the loop indexes [ids] out of range. *)
Lemma compare_books_overrun (books : list library.Book) :
  forall (t : store_test.T) (idx : nat) (ids : list Z)
         (params : list (string * string)),
    List.length params = List.length ids ->
    (idx <= List.length ids)%nat ->
    (List.length ids - idx < List.length books)%nat ->
    snd (store_test.compare_books t idx books (Some ids) (map entry_of params)) =
    Some (index_out_of_range (List.length ids) (List.length ids)).
Proof.
  induction books as [| b books IH]; intros t idx ids params Lp Li Lb;
    [simpl in Lb; lia |].
  cbn [store_test.compare_books elems]. rewrite nth_error_map.
  destruct (nth_error ids idx) as [id |] eqn:Ni.
  - assert (idx < List.length ids)%nat by (apply nth_error_Some; congruence).
    destruct (nth_error params idx) as [[title author] |] eqn:Np.
    + cbn [option_map entry_of fst snd nth_error].
      apply IH; [exact Lp | lia | simpl in Lb; lia].
    + apply nth_error_None in Np. lia.
  - apply nth_error_None in Ni. simpl. repeat f_equal; lia.
Qed.

Lemma three_books_not_blank :
  Forall (fun p : string * string => fst p <> "" /\ snd p <> "") three_books.
Proof. repeat constructor; discriminate. Qed.

(** What [TestLibraryStore_GetBooks] has done when its function is over:
    three rows stored behind the rows of before, a cleanup for each, and
    the books compared with the three ids and [three_books]. *)
Lemma TestLibraryStore_GetBooks_body (ls : store.LibraryStore) :
  wf (store.DB ls) ->
  sqlx.closed (store.DB ls) = false ->
  sqlx.books_id_seq (store.DB ls) + 2 <= sqlx.max_int8 ->
  exists (rows : list sqlx.BookRow) (ls1 : store.LibraryStore),
    let t1 : store_test.T :=
      {| testing.failed := false; testing.output := [];
         testing.cleanups := map (delete_cleanup context.Background)
                               (map sqlx.col_id rows) |} in
    store_test.TestLibraryStore_GetBooks testing.new ls =
    (fst (store_test.compare_books t1 0
            (map book_of_row (sqlx.books (store.DB ls) ++ rows))
            (Some (map sqlx.col_id rows)) (map entry_of three_books)),
     ls1,
     snd (store_test.compare_books t1 0
            (map book_of_row (sqlx.books (store.DB ls) ++ rows))
            (Some (map sqlx.col_id rows)) (map entry_of three_books))) /\
    sqlx.books (store.DB ls1) = sqlx.books (store.DB ls) ++ rows /\
    with_rows (sqlx.books (store.DB ls)) 0 ls1 =
    with_rows (sqlx.books (store.DB ls)) 3 ls /\
    sqlx.closed (store.DB ls1) = false /\
    Forall (fun r => sqlx.books_id_seq (store.DB ls) <= sqlx.col_id r) rows /\
    map (fun r => (sqlx.col_title r, sqlx.col_author r)) rows = three_books.
Proof.
  intros W C M.
  pose proof (createManyBooks_loop_cleanups context.Background three_books
                (live_Background 1) testing.new ls [] W) as H.
  destruct (createManyBooks_loop_succeeds three_books three_books_not_blank
              testing.new ls [] W C) as [ids S];
    [change (sqlx.books_id_seq (store.DB ls) + 3 - 1 <= sqlx.max_int8); lia |].
  unfold store_test.TestLibraryStore_GetBooks, store_test.createManyBooks.
  change store_test.params with (map entry_of three_books).
  destruct (store_test.createManyBooks_loop context.Background testing.new ls
              (map entry_of three_books) (Some [])) as [[[res t1] ls1] panicked].
  simpl in S; subst res.
  destruct H as (-> & rows & -> & Bk & Fr & Cl & Nw & Sq & W1 & R).
  destruct R as (-> & P & Sq' & _).
  exists rows, ls1. cbv zeta. simpl app.
  rewrite GetBooks_Background by (trivial; now rewrite Cl).
  rewrite Bk. simpl elems.
  destruct (store_test.compare_books _ 0 _ _ (map entry_of three_books)) as [t2 p2].
  split_ands; trivial.
  - unfold with_rows. rewrite Nw, Sq'. f_equal. f_equal.
    change (Z.of_nat (List.length three_books)) with 3. lia.
  - now rewrite Cl.
Qed.

Lemma tRunner_GetBooks_test (ls : store.LibraryStore) :
  wf (store.DB ls) ->
  sqlx.closed (store.DB ls) = false ->
  sqlx.books_id_seq (store.DB ls) + 2 <= sqlx.max_int8 ->
  (sqlx.books (store.DB ls) = [] ->
   testing.tRunner store_test.TestLibraryStore_GetBooks ls =
   (passed, with_rows [] 3 ls, None)) /\
  (sqlx.books (store.DB ls) <> [] ->
   exists out,
     testing.tRunner store_test.TestLibraryStore_GetBooks ls =
     ({| testing.failed := true; testing.output := out; testing.cleanups := [] |},
      with_rows (sqlx.books (store.DB ls)) 3 ls,
      Some (index_out_of_range 3 3))).
Proof.
  intros W C M.
  destruct (TestLibraryStore_GetBooks_body ls W C M)
    as (rows & ls1 & B & Bk & WR & Cl & Fr & P).
  cbv zeta in B.
  assert (Len : List.length rows = 3%nat)
    by (apply (f_equal (@List.length _)) in P; now rewrite length_map in P).
  assert (Old : Forall (fun r => sqlx.col_id r < sqlx.books_id_seq (store.DB ls))
                  (sqlx.books (store.DB ls))).
  { destruct W as (_ & _ & Hids & _).
    eapply Forall_impl; [| exact Hids]. simpl; intros; lia. }
  assert (CLN : forall fl out,
             testing.runCleanup
               {| testing.failed := fl; testing.output := out;
                  testing.cleanups := map (delete_cleanup context.Background)
                                        (map sqlx.col_id rows) |} ls1 =
             ({| testing.failed := fl; testing.output := out; testing.cleanups := [] |},
              with_rows (sqlx.books (store.DB ls)) 3 ls)).
  { intros fl out.
    rewrite (runCleanup_delete_cleanups context.Background fl out _ eq_refl ls1 Cl).
    rewrite Bk, (filter_new_rows _ _ _ Old Fr). now rewrite WR. }
  unfold testing.tRunner. rewrite B. split.
  - intros E. rewrite E in *. simpl app.
    rewrite compare_books_equal by (simpl; first [reflexivity | symmetry; exact P]).
    simpl fst; simpl snd.
    now rewrite CLN.
  - intros N.
    pose proof (compare_books_keeps
                  (map book_of_row (sqlx.books (store.DB ls) ++ rows))
                  {| testing.failed := false; testing.output := [];
                     testing.cleanups := map (delete_cleanup context.Background)
                                           (map sqlx.col_id rows) |}
                  0 (Some (map sqlx.col_id rows)) (map entry_of three_books)) as [K _].
    pose proof (compare_books_overrun
                  (map book_of_row (sqlx.books (store.DB ls) ++ rows))
                  {| testing.failed := false; testing.output := [];
                     testing.cleanups := map (delete_cleanup context.Background)
                                           (map sqlx.col_id rows) |}
                  0 (map sqlx.col_id rows) three_books) as O.
    rewrite !length_map, length_app, Len in O.
    specialize (O eq_refl (Nat.le_0_l _)).
    assert (Fl : testing.failed
                   (fst (store_test.compare_books
                      {| testing.failed := false; testing.output := [];
                         testing.cleanups := map (delete_cleanup context.Background)
                                               (map sqlx.col_id rows) |}
                      0 (map book_of_row (sqlx.books (store.DB ls) ++ rows))
                      (Some (map sqlx.col_id rows)) (map entry_of three_books))) = true).
    { destruct (sqlx.books (store.DB ls)) as [| r0 old] eqn:Eb; [contradiction |].
      destruct rows as [| r1 rows']; [discriminate |].
      inversion Old as [| ? ? Hr0 _]; inversion Fr as [| ? ? Hr1 _]; subst.
      simpl.
      replace (sqlx.col_id r0 =? sqlx.col_id r1) with false
        by (symmetry; apply Z.eqb_neq; lia).
      simpl. apply compare_books_keeps.
      now destruct (negb _), (negb _). }
    destruct (store_test.compare_books _ 0 _ _ (map entry_of three_books)) as [[fl out cs] p2].
    simpl in K, O, Fl. subst cs fl.
    assert (O' : p2 = Some (index_out_of_range 3 3)).
    { apply O. destruct (sqlx.books (store.DB ls)); [contradiction | simpl; lia]. }
    subst p2. exists out. simpl fst; simpl snd. now rewrite CLN.
Qed.

(** X19.  [TestLibraryStore_GetBooks] depends on the table being empty
    when it starts.  On an open handle with three values left in the
    sequence: if the table has no rows, the test passes and logs
    nothing; if it has any row, [GetBooks] returns more books than the
    three ids, the test reports a failure and then panics on [ids[3]].
    Either way its cleanups leave the rows of the table as they were. *)
Theorem TestLibraryStore_GetBooks_needs_empty_table (ls : store.LibraryStore) :
  wf (store.DB ls) ->
  sqlx.closed (store.DB ls) = false ->
  sqlx.books_id_seq (store.DB ls) + 2 <= sqlx.max_int8 ->
  (sqlx.books (store.DB ls) = [] ->
   testing.tRunner store_test.TestLibraryStore_GetBooks ls =
   (passed, with_rows [] 3 ls, None)) /\
  (sqlx.books (store.DB ls) <> [] ->
   exists out,
     testing.tRunner store_test.TestLibraryStore_GetBooks ls =
     ({| testing.failed := true; testing.output := out; testing.cleanups := [] |},
      with_rows (sqlx.books (store.DB ls)) 3 ls,
      Some (index_out_of_range 3 3))).
Proof. exact (tRunner_GetBooks_test ls). Qed.

Lemma TestLibraryStore_GetBooks_needs_empty_table_witness :
  testing.tRunner store_test.TestLibraryStore_GetBooks new_store =
  (passed, with_rows [] 3 new_store, None).
Proof.
  refine (proj1 (TestLibraryStore_GetBooks_needs_empty_table new_store _ _ _) _).
  - repeat split; simpl; try constructor; lia.
  - reflexivity.
  - vm_compute. intros E; inversion E.
  - reflexivity.
Defined.

(** X20.  The suite of [04-persistence-end], run by [TestMain] against a
    database whose table keeps its invariant and whose sequence has six
    values left.  If the table is empty, the four tests pass, nothing is
    logged, the exit code is 0 and the table is empty again.  If it is
    not, the first three tests pass and [TestLibraryStore_GetBooks]
    panics: the exit code is 2.  Either way the rows are those of
    before, and the handle is left open: [os.Exit] ends the process
    before the deferred [Close] runs. *)
Theorem TestMain_suite (db : sqlx.DB) :
  wf db ->
  sqlx.books_id_seq db + 5 <= sqlx.max_int8 ->
  (sqlx.books db = [] ->
   store_test.TestMain db =
   (0, [[]; []; []; []], with_rows [] 6 {| store.DB := db |})) /\
  (sqlx.books db <> [] ->
   exists out,
     store_test.TestMain db =
     (2, [[]; []; []; out], with_rows (sqlx.books db) 6 {| store.DB := db |})).
Proof.
  intros W M.
  set (ls0 := {| store.DB := MustConnect db |}).
  assert (W0 : wf (store.DB ls0)) by exact W.
  assert (Step : forall k, 0 <= k -> k <= 5 ->
            wf (store.DB (with_rows (sqlx.books db) k ls0)) /\
            sqlx.books_id_seq (store.DB (with_rows (sqlx.books db) k ls0)) + (5 - k)
            <= sqlx.max_int8).
  { intros k K0 K5. split; [now apply wf_with_rows |].
    unfold with_rows, ls0, MustConnect; cbn [store.DB sqlx.books_id_seq]. lia. }
  assert (T123 : forall k, 0 <= k -> k <= 5 ->
            testing.tRunner store_test.TestLibraryStore_CreateBook
              (with_rows (sqlx.books db) k ls0) =
            (passed, with_rows (sqlx.books db) (k + 1) ls0, None) /\
            testing.tRunner store_test.TestLibraryStore_DeleteBook
              (with_rows (sqlx.books db) k ls0) =
            (passed, with_rows (sqlx.books db) (k + 1) ls0, None) /\
            testing.tRunner store_test.TestLibraryStore_GetBookByID
              (with_rows (sqlx.books db) k ls0) =
            (passed, with_rows (sqlx.books db) (k + 1) ls0, None)).
  { intros k K0 K5. destruct (Step k K0 K5) as [Wk Mk].
    pose proof (tRunner_one_book_tests (with_rows (sqlx.books db) k ls0) Wk eq_refl)
      as T. rewrite with_rows_with_rows in T. apply T. lia. }
  destruct (T123 0) as (T1 & _ & _); [lia | lia |].
  destruct (T123 1) as (_ & T2 & _); [lia | lia |].
  destruct (T123 2) as (_ & _ & T3); [lia | lia |].
  destruct (Step 3) as [W3 M3]; [lia | lia |].
  pose proof (tRunner_GetBooks_test (with_rows (sqlx.books db) 3 ls0) W3 eq_refl)
    as [T4 T4']; [lia |].
  rewrite !with_rows_with_rows in *.
  assert (E0 : ls0 = with_rows (sqlx.books db) 0 ls0).
  { unfold ls0, with_rows, MustConnect; simpl. now rewrite Z.add_0_r. }
  unfold store_test.TestMain. fold ls0. rewrite E0.
  cbn [testing.Run]. rewrite T1. cbn [testing.failed testing.output passed].
  change (0 + 1) with 1.
  rewrite T2. cbn [testing.failed testing.output passed]. change (1 + 1) with 2.
  rewrite T3. cbn [testing.failed testing.output passed]. change (2 + 1) with 3.
  change (3 + 3) with 6 in T4, T4'.
  split.
  - intros E. simpl sqlx.books in T4. rewrite E in *.
    specialize (T4 eq_refl). rewrite T4. reflexivity.
  - intros N. destruct (T4' N) as [out T]. exists out. rewrite T. reflexivity.
Qed.

Lemma TestMain_suite_witness :
  store_test.TestMain (sqlx.migrated 0) =
  (0, [[]; []; []; []], with_rows [] 6 {| store.DB := sqlx.migrated 0 |}).
Proof.
  refine (proj1 (TestMain_suite (sqlx.migrated 0) _ _) _).
  - repeat split; simpl; try constructor; lia.
  - vm_compute. intros E; inversion E.
  - reflexivity.
Defined.

(** The helper [deleteBook] of the first store tests does what the
    method [DeleteBook] does. *)
Lemma deleteBook_DeleteBook (ctx : context.Context) (id : Z) (ls : store.LibraryStore) :
  (let '(err, db) := store_test_begin.deleteBook ctx (store.DB ls) id in
   (err, {| store.DB := db |})) = store.DeleteBook ctx id ls.
Proof.
  unfold store_test_begin.deleteBook, store.DeleteBook.
  destruct (sqlx.ExecContext ctx (sqlx.DELETE_FROM_books id) (store.DB ls))
    as [[e |] db]; reflexivity.
Qed.

Lemma begin_test_cleanup (t : store_test.T) (id : Z) (ls : store.LibraryStore) :
  testing.runCleanup
    (test.MustCleanup t
       (fun ls =>
          match store_test_begin.deleteBook context.Background (store.DB ls) id with
          | (err, db) => (err, {| store.DB := db |})
          end)) ls =
  testing.runCleanup (testing.Cleanup t (delete_cleanup context.Background id)) ls.
Proof.
  unfold test.MustCleanup. rewrite !runCleanup_Cleanup.
  unfold delete_cleanup. now rewrite deleteBook_DeleteBook.
Qed.

(** The body of the first store test, up to its cleanups. *)
Lemma begin_test_body (ls : store.LibraryStore) :
  wf (store.DB ls) -> sqlx.closed (store.DB ls) = false ->
  sqlx.books_id_seq (store.DB ls) <= sqlx.max_int8 ->
  exists t,
    store_test_begin.TestLibraryStore_CreateBook testing.new ls =
    (t,
     with_rows (sqlx.books (store.DB ls) ++
                [inserted_row "The Lean Startup" "Eric Ries" (store.DB ls)]) 1 ls,
     None) /\
    forall w,
      testing.runCleanup t w =
      testing.runCleanup
        (testing.Cleanup testing.new
           (delete_cleanup context.Background (sqlx.books_id_seq (store.DB ls)))) w.
Proof.
  intros W C M.
  set (book := {| library.ID := 0; library.Title := "The Lean Startup";
                  library.Author := "Eric Ries" |}).
  pose proof (CreateBook_in_place context.Background book ls) as P.
  destruct (CreateBook_Background "The Lean Startup" "Eric Ries" ls W C M)
    as [E _]; [discriminate | discriminate |].
  simpl library.Title in P. simpl library.Author in P. rewrite E in P.
  unfold store_test_begin.TestLibraryStore_CreateBook. fold book.
  destruct (store_begin.CreateBook context.Background book ls) as [[e b] s].
  destruct P as (-> & -> & ->).
  cbn [library.ID library.Title library.Author].
  assert (Z : (sqlx.books_id_seq (store.DB ls) =? 0) = false).
  { destruct W as [S _]. apply Z.eqb_neq. lia. }
  rewrite Z. cbn [String.eqb Ascii.eqb Bool.eqb negb andb].
  eexists. split; [reflexivity |].
  intros w. apply begin_test_cleanup.
Qed.

(** X21.  The first store test as written with a connection of its own
    ([defer db.Close()]): on a table that keeps its invariant, with a
    value left in the sequence, the test passes; but its cleanup runs
    after the deferred [Close], so [deleteBook] fails, the failure is
    only logged ([failed to clean up after test: delete book: sql:
    database is closed]), and the row of the book stays in the table. *)
Theorem own_connection_test_leaves_row (ls : store.LibraryStore) :
  wf (store.DB ls) ->
  sqlx.books_id_seq (store.DB ls) <= sqlx.max_int8 ->
  testing.tRunner store_test_begin.TestLibraryStore_CreateBook_own_connection ls =
  ({| testing.failed := false;
      testing.output :=
        [testing.Println
           [testing.Str "failed to clean up after test:";
            testing.Error (fmt.Errorf_w "delete book: " errors.errDBClosed)]];
      testing.cleanups := [] |},
   {| store.DB :=
        {| sqlx.closed := true;
           sqlx.books :=
             sqlx.books (store.DB ls) ++
             [inserted_row "The Lean Startup" "Eric Ries" (store.DB ls)];
           sqlx.books_id_seq := sqlx.books_id_seq (store.DB ls) + 1;
           sqlx.now := sqlx.now (store.DB ls) |} |},
   None).
Proof.
  intros W M.
  destruct (begin_test_body {| store.DB := MustConnect (store.DB ls) |} W eq_refl M)
    as (t & B & CL).
  unfold testing.tRunner, store_test_begin.TestLibraryStore_CreateBook_own_connection.
  rewrite B, CL, runCleanup_Cleanup.
  unfold delete_cleanup. rewrite DeleteBook_cases. reflexivity.
Qed.

Lemma own_connection_test_leaves_row_witness :
  testing.tRunner store_test_begin.TestLibraryStore_CreateBook_own_connection
    three_books_store =
  ({| testing.failed := false;
      testing.output :=
        [testing.Println
           [testing.Str "failed to clean up after test:";
            testing.Error (fmt.Errorf_w "delete book: " errors.errDBClosed)]];
      testing.cleanups := [] |},
   {| store.DB :=
        {| sqlx.closed := true;
           sqlx.books :=
             sqlx.books (store.DB three_books_store) ++
             [inserted_row "The Lean Startup" "Eric Ries" (store.DB three_books_store)];
           sqlx.books_id_seq := sqlx.books_id_seq (store.DB three_books_store) + 1;
           sqlx.now := sqlx.now (store.DB three_books_store) |} |},
   None).
Proof.
  refine (own_connection_test_leaves_row three_books_store _ _).
  - repeat split; simpl; repeat constructor; try lia; discriminate.
  - vm_compute. intros E; inversion E.
Defined.

(** X22.  [TestMain] of [04-persistence-begin].  Without
    [TEST_DATABASE_URL] it prints the hint and exits with 0, and no test
    touches the database.  With it, on a table that keeps its invariant
    and a value left in the sequence, the one test passes on the shared
    connection, its cleanup removes the book again, and the connection
    is closed before the process exits with 0: the rows are those of
    before. *)
Theorem TestMain_shared_connection (url : string) (db : sqlx.DB) :
  wf db ->
  sqlx.books_id_seq db <= sqlx.max_int8 ->
  store_test_begin.TestMain url db =
  if String.eqb url "" then
    (0, ["set the TEST_DATABASE_URL environment variable to run this test suite"],
     [], db)
  else
    (0, [], [[]],
     {| sqlx.closed := true; sqlx.books := sqlx.books db;
        sqlx.books_id_seq := sqlx.books_id_seq db + 1; sqlx.now := sqlx.now db |}).
Proof.
  intros W M. unfold store_test_begin.TestMain.
  destruct (String.eqb url ""); [reflexivity |].
  destruct (begin_test_body {| store.DB := MustConnect db |} W eq_refl M)
    as (t & B & CL).
  cbn [testing.Run]. unfold testing.tRunner. rewrite B, CL.
  change (testing.Cleanup testing.new ?c) with
    {| testing.failed := false; testing.output := [];
       testing.cleanups := [c] |}.
  rewrite (cleanup_created false [] "The Lean Startup" "Eric Ries"
             {| store.DB := MustConnect db |} W).
  reflexivity.
Qed.

Lemma TestMain_shared_connection_witness :
  store_test_begin.TestMain "postgres://localhost/bookshelf" (store.DB three_books_store) =
  (0, [], [[]],
   {| sqlx.closed := true; sqlx.books := sqlx.books (store.DB three_books_store);
      sqlx.books_id_seq := sqlx.books_id_seq (store.DB three_books_store) + 1;
      sqlx.now := sqlx.now (store.DB three_books_store) |}).
Proof.
  refine (TestMain_shared_connection "postgres://localhost/bookshelf"
            (store.DB three_books_store) _ _).
  - repeat split; simpl; repeat constructor; try lia; discriminate.
  - vm_compute. intros E; inversion E.
Defined.

(** X23.  Adding [Language] to [greetRequest] keeps the call sites that
    do not set it: with [Language] left empty, [greet] returns what it
    returned before the field existed, the greeting of the first
    [greet(name)].  [greet] fails exactly when [Language] is none of the
    empty string, [en] and [de]; it then returns no response and the
    error [invalid language: <Language>]. *)
Theorem greet_default_language (params : greet_example.greetRequest) :
  (greet_example.Language params = "" ->
   greet_example.greet params = greet_example.greet_request (greet_example.Name params) /\
   fst (greet_example.greet params) =
   Some {| greet_example.Greeting :=
             greet_example.greet_name (greet_example.Name params) |}) /\
  (snd (greet_example.greet params) = None <->
   greet_example.Language params = "" \/
   greet_example.Language params = "en" \/
   greet_example.Language params = "de") /\
  (forall err, snd (greet_example.greet params) = Some err ->
     fst (greet_example.greet params) = None /\
     errors.Error err = ("invalid language: " ++ greet_example.Language params)%string).
Proof.
  destruct params as [name lang]. unfold greet_example.greet. simpl.
  split; [intros ->; split; reflexivity |].
  destruct (String.eqb_spec lang "") as [-> | N0]; simpl.
  - split; [split; auto | discriminate].
  - destruct (String.eqb_spec lang "en") as [-> | N1]; simpl.
    + split; [split; auto | discriminate].
    + destruct (String.eqb_spec lang "de") as [-> | N2]; simpl.
      * split; [split; auto | discriminate].
      * split.
        -- split; [discriminate | intros [E | [E | E]]; congruence].
        -- intros err [= <-]. split; reflexivity.
Qed.

Lemma greet_default_language_witness :
  greet_example.greet {| greet_example.Name := "Frank"; greet_example.Language := "" |} =
  greet_example.greet_request "Frank" /\
  fst (greet_example.greet
         {| greet_example.Name := "Frank"; greet_example.Language := "" |}) =
  Some {| greet_example.Greeting := greet_example.greet_name "Frank" |}.
Proof.
  refine (proj1 (greet_default_language
                   {| greet_example.Name := "Frank"; greet_example.Language := "" |}) _).
  reflexivity.
Defined.
